(** * Calculation records: the factory, the four variants and the schemas

    A shallow embedding of [app/models/calculation.py] and
    [app/schemas/calculation.py].  Python exceptions are values of [exn]
    and a call that may raise returns [Exc A].  The numbers of an
    [inputs] list are Python numbers as they are passed, ints or floats,
    with the arithmetic Python applies to them. *)

From Stdlib Require Import List String Ascii Bool Arith ZArith NArith Lia.
From Stdlib Require Import Floats.PrimFloat Floats.SpecFloat.
From Stdlib Require Floats.FloatOps.
Import ListNotations.
Local Open Scope string_scope.
Local Open Scope list_scope.

(** ** Exceptions *)

(** One entry of a pydantic [ValidationError]: the field it is about and
    what failed there; [float_type_at] is about one item of a list. *)
Inductive ErrorDetails : Type :=
| value_error (loc : string) (msg : string)
| enum (loc : string)
| too_short (loc : string) (min_length actual_length : nat)
| list_type (loc : string)
| uuid_type (loc : string)
| datetime_type (loc : string)
| float_type (loc : string)
| float_type_at (loc : string) (index : nat).

Inductive exn : Type :=
| ValueError (msg : string)
| NotImplementedError (msg : string)
| IndexError
| ZeroDivisionError
| OverflowError
| ValidationError (errors : list ErrorDetails).

Definition Exc (A : Type) : Type := (exn + A)%type.

Definition ret {A : Type} (a : A) : Exc A := inr a.
Definition raise {A : Type} (e : exn) : Exc A := inl e.
Definition bind {A B : Type} (m : Exc A) (k : A -> Exc B) : Exc B :=
  match m with
  | inl e => inl e
  | inr a => k a
  end.

Arguments ret {A} a /.
Arguments raise {A} e /.

Notation "x <- m ;; k" := (bind m (fun x => k))
  (at level 61, m at next level, right associativity).

(** ** Numbers *)

(** A Python number: an int of any size or a float (IEEE 754 binary64,
    as the kernel's floats are). *)
Inductive pynum : Type :=
| PyInt (n : Z)
| PyFloat (x : float).

Definition spec_of_int (n : Z) : spec_float :=
  match n with
  | Z0 => S754_zero false
  | Zpos p => S754_finite false p 0
  | Zneg p => S754_finite true p 0
  end.

(** What rounding to binary64 gives, when it is not out of range. *)
Definition finite_float (sf : spec_float) : Exc float :=
  match sf with
  | S754_infinity _ => raise OverflowError
  | _ => ret (FloatOps.SF2Prim sf)
  end.

(** [float(n)]: the nearest float, ties to even; an int beyond the range
    of float raises. *)
Definition float_of_int (n : Z) : Exc float :=
  finite_float (binary_normalize FloatOps.prec FloatOps.emax n 0 false).

Arguments float_of_int n : simpl never.

(** The float an operand of mixed arithmetic is converted to. *)
Definition to_float (v : pynum) : Exc float :=
  match v with
  | PyInt n => float_of_int n
  | PyFloat x => ret x
  end.

(** [a op b] when one of the operands is a float: both are converted,
    then the floats are combined; float arithmetic does not raise. *)
Definition float_op (op : float -> float -> float) (a b : pynum) : Exc pynum :=
  x <- to_float a ;;
  y <- to_float b ;;
  ret (PyFloat (op x y)).

(** [a + b], [a - b], [a * b]: exact on two ints. *)
Definition py_add (a b : pynum) : Exc pynum :=
  match a, b with
  | PyInt m, PyInt n => ret (PyInt (m + n))
  | _, _ => float_op PrimFloat.add a b
  end.

Definition py_sub (a b : pynum) : Exc pynum :=
  match a, b with
  | PyInt m, PyInt n => ret (PyInt (m - n))
  | _, _ => float_op PrimFloat.sub a b
  end.

Definition py_mul (a b : pynum) : Exc pynum :=
  match a, b with
  | PyInt m, PyInt n => ret (PyInt (m * n))
  | _, _ => float_op PrimFloat.mul a b
  end.

(** [v == 0]. *)
Definition eq_zero (v : pynum) : bool :=
  match v with
  | PyInt n => (n =? 0)%Z
  | PyFloat x => PrimFloat.eqb x 0
  end.

Definition is_zero (value : pynum) : Prop := eq_zero value = true.

Definition nonzero (value : pynum) : Prop := eq_zero value = false.

(** [m / n] on two ints, [n] not zero: the quotient rounded once to the
    nearest float, ties to even; a quotient beyond the range of float
    raises. *)
Definition int_truediv (m n : Z) : Exc float :=
  finite_float
    (SFdiv FloatOps.prec FloatOps.emax (spec_of_int m) (spec_of_int n)).

Arguments int_truediv m n : simpl never.

(** [a / b].  With a float among the operands both are converted first,
    which can raise, and then a zero divisor raises; the divisor's float
    is zero exactly when the divisor is. *)
Definition py_truediv (a b : pynum) : Exc pynum :=
  match a, b with
  | PyInt m, PyInt n =>
      if (n =? 0)%Z then raise ZeroDivisionError
      else q <- int_truediv m n ;; ret (PyFloat q)
  | _, _ =>
      x <- to_float a ;;
      y <- to_float b ;;
      if eq_zero b then raise ZeroDivisionError
      else ret (PyFloat (PrimFloat.div x y))
  end.

(** Lists of floats and lists of ints, as lists of numbers. *)
Definition floats (fs : list float) : list pynum := map PyFloat fs.

Definition ints (zs : list Z) : list pynum := map PyInt zs.

(** A left fold with an operation that can raise: the fold stops at the
    first step that does. *)
Fixpoint fold_left_exc (op : pynum -> pynum -> Exc pynum) (values : list pynum)
  (start : pynum) : Exc pynum :=
  match values with
  | [] => ret start
  | value :: rest => acc <- op start value ;; fold_left_exc op rest acc
  end.

(** ** Python values *)

Definition UUID : Type := N.
Definition datetime : Type := N.

(** The values an [inputs] or [type] attribute can hold. *)
Inductive pyval : Type :=
| PyNone
| PyStr (s : string)
| PyNum (x : pynum)
| PyTuple (xs : list pynum)
| PyList (xs : list pynum).

(** [isinstance(v, list) and len(v) >= 2]. *)
Definition well_shaped (v : pyval) : Prop :=
  exists xs, v = PyList xs /\ 2 <= List.length xs.

(** [str.lower()]: the upper-case letters A-Z go to a-z. *)
Definition lower_char (c : ascii) : ascii :=
  let n := nat_of_ascii c in
  if (65 <=? n)%nat && (n <=? 90)%nat then ascii_of_nat (n + 32) else c.

Fixpoint lower (s : string) : string :=
  match s with
  | EmptyString => EmptyString
  | String c rest => String (lower_char c) (lower rest)
  end.

(** [d.get(key)] on a dict literal. *)
Fixpoint dict_get {V : Type} (d : list (string * V)) (key : string) : option V :=
  match d with
  | [] => None
  | (k, v) :: rest => if String.eqb k key then Some v else dict_get rest key
  end.

(** [xs[0]]. *)
Definition first_item {A : Type} (xs : list A) : Exc A :=
  match xs with
  | [] => raise IndexError
  | x :: _ => ret x
  end.

(** [xs[1:]]. *)
Definition slice_from_1 {A : Type} (xs : list A) : list A := tl xs.

(** [sum(xs)]: the accumulator starts at the int 0 and takes each item
    in turn, every step being one [+], as CPython computes it up to
    3.11; from 3.12 on the partial sums of floats are compensated, which
    can change the last bits of an inexact float sum. *)
Fixpoint sum_from (acc : pynum) (xs : list pynum) : Exc pynum :=
  match xs with
  | [] => ret acc
  | x :: rest => acc' <- py_add acc x ;; sum_from acc' rest
  end.

Definition sum (xs : list pynum) : Exc pynum := sum_from (PyInt 0) xs.

(** * app/models/calculation.py *)

Module models.

(** The mapped classes; [Base] is [Calculation] itself. *)
Inductive CalculationClass : Type :=
| Base
| Addition
| Subtraction
| Multiplication
| Division.

Definition polymorphic_identity (k : CalculationClass) : string :=
  match k with
  | Base => "calculation"
  | Addition => "addition"
  | Subtraction => "subtraction"
  | Multiplication => "multiplication"
  | Division => "division"
  end.

Definition calculation_classes : list (string * CalculationClass) :=
  [ ("addition", Addition);
    ("subtraction", Subtraction);
    ("multiplication", Multiplication);
    ("division", Division) ].

(** The mapped classes, each registered by the mapper under the
    [polymorphic_identity] of its [__mapper_args__]. *)
Definition mapped_classes : list CalculationClass :=
  [Base; Addition; Subtraction; Multiplication; Division].

(** The class the mapper attaches to a row whose discriminator column
    [type] holds [identity]. *)
Definition class_for_identity (identity : string) : option CalculationClass :=
  find (fun k => String.eqb (polymorphic_identity k) identity) mapped_classes.

(** The keys of [calculation_classes]. *)
Definition known_tags : list string := map fst calculation_classes.

Definition variants : list CalculationClass := map snd calculation_classes.

Definition InvalidInputs : exn :=
  ValueError "Inputs must be a list with at least two numbers.".

Definition DivisionByZero : exn := ValueError "Cannot divide by zero.".

Definition UnsupportedType (calculation_type : string) : exn :=
  ValueError ("Unsupported calculation type: " ++ calculation_type).

(** An instance of [Calculation] or of one of its subclasses.  The
    columns with a default ([id], [created_at], [updated_at]) and the
    nullable [result] are absent until something sets them. *)
Record Calculation : Type := {
  class_ : CalculationClass;
  id : option UUID;
  user_id : option UUID;
  type : string;
  inputs : pyval;
  result : option pynum;
  created_at : option datetime;
  updated_at : option datetime
}.

(** [calculation_class(user_id=user_id, inputs=inputs)]: the mapper sets
    the discriminator to the class's polymorphic identity. *)
Definition init (k : CalculationClass) (user_id : UUID) (inputs : pyval)
  : Calculation :=
  {| class_ := k;
     id := None;
     user_id := Some user_id;
     type := polymorphic_identity k;
     inputs := inputs;
     result := None;
     created_at := None;
     updated_at := None |}.

(** [instance.result = value]. *)
Definition set_result (instance : Calculation) (value : pynum) : Calculation :=
  {| class_ := class_ instance;
     id := id instance;
     user_id := user_id instance;
     type := type instance;
     inputs := inputs instance;
     result := Some value;
     created_at := created_at instance;
     updated_at := updated_at instance |}.

(** What the INSERT of a flush fills in: a column that is still absent
    and declares a [default] ([uuid.uuid4] for [id], [datetime.utcnow]
    for [created_at] and [updated_at]) takes the value the default
    produced; the other columns are stored as they are. *)
Definition apply_defaults (new_id : UUID) (now_created now_updated : datetime)
  (instance : Calculation) : Calculation :=
  {| class_ := class_ instance;
     id := match id instance with Some i => Some i | None => Some new_id end;
     user_id := user_id instance;
     type := type instance;
     inputs := inputs instance;
     result := result instance;
     created_at :=
       match created_at instance with
       | Some t => Some t
       | None => Some now_created
       end;
     updated_at :=
       match updated_at instance with
       | Some t => Some t
       | None => Some now_updated
       end |}.

(** The guard every [get_result] starts with,
    [not isinstance(self.inputs, list) or len(self.inputs) < 2]; past it
    the attribute is known to be a list and is used as one. *)
Definition checked_inputs (v : pyval) : Exc (list pynum) :=
  match v with
  | PyList xs => if (List.length xs <? 2)%nat then raise InvalidInputs else ret xs
  | _ => raise InvalidInputs
  end.

Definition Addition_get_result (self : Calculation) : Exc pynum :=
  xs <- checked_inputs (inputs self) ;;
  sum xs.

Fixpoint Subtraction_loop (result : pynum) (values : list pynum) : Exc pynum :=
  match values with
  | [] => ret result
  | value :: rest =>
      result' <- py_sub result value ;;
      Subtraction_loop result' rest
  end.

Definition Subtraction_get_result (self : Calculation) : Exc pynum :=
  xs <- checked_inputs (inputs self) ;;
  result <- first_item xs ;;
  Subtraction_loop result (slice_from_1 xs).

Fixpoint Multiplication_loop (result : pynum) (values : list pynum) : Exc pynum :=
  match values with
  | [] => ret result
  | value :: rest =>
      result' <- py_mul result value ;;
      Multiplication_loop result' rest
  end.

Definition Multiplication_get_result (self : Calculation) : Exc pynum :=
  xs <- checked_inputs (inputs self) ;;
  Multiplication_loop (PyInt 1) xs.

Fixpoint Division_loop (result : pynum) (values : list pynum) : Exc pynum :=
  match values with
  | [] => ret result
  | value :: rest =>
      if eq_zero value then raise DivisionByZero
      else
        result' <- py_truediv result value ;;
        Division_loop result' rest
  end.

Definition Division_get_result (self : Calculation) : Exc pynum :=
  xs <- checked_inputs (inputs self) ;;
  result <- first_item xs ;;
  Division_loop result (slice_from_1 xs).

(** Method dispatch on the instance's class. *)
Definition get_result (self : Calculation) : Exc pynum :=
  match class_ self with
  | Base => raise (NotImplementedError "Subclasses must implement get_result() method")
  | Addition => Addition_get_result self
  | Subtraction => Subtraction_get_result self
  | Multiplication => Multiplication_get_result self
  | Division => Division_get_result self
  end.

Definition create (calculation_type : string) (user_id : UUID)
  (inputs : pyval) : Exc Calculation :=
  match dict_get calculation_classes (lower calculation_type) with
  | None => raise (UnsupportedType calculation_type)
  | Some calculation_class =>
      let instance := init calculation_class user_id inputs in
      value <- get_result instance ;;
      ret (set_result instance value)
  end.

End models.

(** * app/schemas/calculation.py *)

Module schemas.

Inductive CalculationType : Type :=
| ADDITION
| SUBTRACTION
| MULTIPLICATION
| DIVISION.

Definition value (e : CalculationType) : string :=
  match e with
  | ADDITION => "addition"
  | SUBTRACTION => "subtraction"
  | MULTIPLICATION => "multiplication"
  | DIVISION => "division"
  end.

Definition members : list CalculationType :=
  [ADDITION; SUBTRACTION; MULTIPLICATION; DIVISION].

Definition CalculationType_eqb (a b : CalculationType) : bool :=
  String.eqb (value a) (value b).

(** [CalculationType(s)]: the member whose value is [s]. *)
Definition CalculationType_of_value (s : string) : option CalculationType :=
  find (fun e => String.eqb (value e) s) members.

(** [{e.value for e in CalculationType}]. *)
Definition allowed : list string := map value members.

Fixpoint insert_sorted (s : string) (l : list string) : list string :=
  match l with
  | [] => [s]
  | t :: rest => if String.leb s t then s :: l else t :: insert_sorted s rest
  end.

Definition sorted (l : list string) : list string :=
  fold_right insert_sorted [] l.

(** The message [validate_type] builds for a string that is not allowed. *)
Definition type_must_be_one_of : string :=
  "Type must be one of: " ++ String.concat ", " (sorted allowed).

(** ** What pydantic does around the validators *)

(** A [ValueError] raised by a validator becomes an entry of the
    [ValidationError], under the field's name. *)
Definition wrap {A : Type} (loc : string) (m : Exc A) : Exc A :=
  match m with
  | inl (ValueError msg) => raise (ValidationError [value_error loc msg])
  | _ => m
  end.

Definition errors_of {A : Type} (m : Exc A) : list ErrorDetails :=
  match m with
  | inl (ValidationError errors) => errors
  | _ => []
  end.

(** The fields are validated one after the other and their errors are
    collected. *)
Definition both {A B : Type} (a : Exc A) (b : Exc B) : Exc (A * B) :=
  match a, b with
  | inr x, inr y => ret (x, y)
  | _, _ => raise (ValidationError (errors_of a ++ errors_of b))
  end.

(** A required attribute that is [None]. *)
Definition required {A : Type} (err : ErrorDetails) (o : option A) : Exc A :=
  match o with
  | Some a => ret a
  | None => raise (ValidationError [err])
  end.

(** A number given where a [float] is declared: a float is taken as it
    is and an int is converted; an int beyond the range of float has no
    float and is refused. *)
Definition float_item (v : pynum) : option float :=
  match to_float v with
  | inr x => Some x
  | inl _ => None
  end.

(** The items of a [List[float]], each validated under its index: the
    entries of the refused ones and the floats of the others. *)
Fixpoint validate_items (loc : string) (index : nat) (xs : list pynum)
  : list ErrorDetails * list float :=
  match xs with
  | [] => ([], [])
  | x :: rest =>
      let (errors, ys) := validate_items loc (S index) rest in
      match float_item x with
      | Some y => (errors, y :: ys)
      | None => (float_type_at loc index :: errors, ys)
      end
  end.

(** An entry about one item of the list at [loc]. *)
Definition item_entry (loc : string) (d : ErrorDetails) : Prop :=
  exists index, d = float_type_at loc index.

(** The floats of a list all of whose items are accepted. *)
Fixpoint float_list (xs : list pynum) : option (list float) :=
  match xs with
  | [] => Some []
  | x :: rest =>
      match float_item x, float_list rest with
      | Some y, Some ys => Some (y :: ys)
      | _, _ => None
      end
  end.

(** A field declared [float], read from an attribute that may be absent. *)
Definition float_field (loc : string) (o : option pynum) : Exc float :=
  match o with
  | Some v =>
      match float_item v with
      | Some x => ret x
      | None => raise (ValidationError [float_type loc])
      end
  | None => raise (ValidationError [float_type loc])
  end.

Record CalculationBase : Type := {
  type : CalculationType;
  inputs : list float
}.

Definition validate_type (v : pyval) : Exc string :=
  match v with
  | PyStr s =>
      if negb (existsb (String.eqb (lower s)) allowed) then
        raise (ValueError ("Type must be one of: " ++ String.concat ", " (sorted allowed)))
      else ret (lower s)
  | _ => raise (ValueError "Type must be a string")
  end.

Definition check_inputs_is_list (v : pyval) : Exc pyval :=
  match v with
  | PyList _ => ret v
  | _ => raise (ValueError "Input should be a valid list")
  end.

Definition validate_inputs (self : CalculationBase) : Exc CalculationBase :=
  if (List.length (inputs self) <? 2)%nat then
    raise (ValueError "At least two numbers are required for calculation")
  else if CalculationType_eqb (type self) DIVISION then
    if existsb (fun x => PrimFloat.eqb x 0) (slice_from_1 (inputs self)) then
      raise (ValueError "Cannot divide by zero")
    else ret self
  else ret self.

(** The field [type: CalculationType] with its before-validator. *)
Definition type_field (v : pyval) : Exc CalculationType :=
  s <- wrap "type" (validate_type v) ;;
  match CalculationType_of_value s with
  | Some e => ret e
  | None => raise (ValidationError [enum "type"])
  end.

(** The field [inputs: List[float]] with [min_length=2] and its
    before-validator: the items are validated first, and the length is
    checked on the validated list. *)
Definition inputs_field (v : pyval) : Exc (list float) :=
  v' <- wrap "inputs" (check_inputs_is_list v) ;;
  match v' with
  | PyList xs =>
      let (errors, ys) := validate_items "inputs" 0 xs in
      match errors with
      | _ :: _ => raise (ValidationError errors)
      | [] =>
          if (List.length ys <? 2)%nat then
            raise (ValidationError [too_short "inputs" 2 (List.length ys)])
          else ret ys
      end
  | _ => raise (ValidationError [list_type "inputs"])
  end.

(** [CalculationBase(type=..., inputs=...)]: the fields first, then the
    model validator. *)
Definition CalculationBase_validate (raw_type raw_inputs : pyval)
  : Exc CalculationBase :=
  fields <- both (type_field raw_type) (inputs_field raw_inputs) ;;
  wrap "" (validate_inputs {| type := fst fields; inputs := snd fields |}).

Record CalculationRead : Type := {
  read_type : CalculationType;
  read_inputs : list float;
  id : UUID;
  user_id : UUID;
  created_at : datetime;
  updated_at : datetime;
  result : float
}.

(** The part of a [CalculationRead] it inherits from [CalculationBase]. *)
Definition as_base (self : CalculationRead) : CalculationBase :=
  {| type := read_type self; inputs := read_inputs self |}.

(** [CalculationRead.model_validate(obj)] with [from_attributes=True]:
    every field is read from the attribute of the same name, in the
    order the fields are declared, the inherited ones first. *)
Definition CalculationRead_model_validate (obj : models.Calculation)
  : Exc CalculationRead :=
  fields <-
    both (type_field (PyStr (models.type obj)))
   (both (inputs_field (models.inputs obj))
   (both (required (uuid_type "id") (models.id obj))
   (both (required (uuid_type "user_id") (models.user_id obj))
   (both (required (datetime_type "created_at") (models.created_at obj))
   (both (required (datetime_type "updated_at") (models.updated_at obj))
         (float_field "result" (models.result obj))))))) ;;
  let '(t, (i, (id, (u, (c, (m, r)))))) := fields in
  let self :=
    {| read_type := t; read_inputs := i; id := id; user_id := u;
       created_at := c; updated_at := m; result := r |} in
  _ <- wrap "" (validate_inputs (as_base self)) ;;
  ret self.

(** What a stored record must be like for [CalculationRead] to hold [r]. *)
Definition reads_as (obj : models.Calculation) (r : CalculationRead)
  : Prop :=
  value (read_type r) = lower (models.type obj)
  /\ (exists xs, models.inputs obj = PyList xs
                 /\ float_list xs = Some (read_inputs r))
  /\ 2 <= List.length (read_inputs r)
  /\ (read_type r = DIVISION ->
      Forall nonzero (floats (tl (read_inputs r))))
  /\ models.id obj = Some (id r)
  /\ models.user_id obj = Some (user_id r)
  /\ models.created_at obj = Some (created_at r)
  /\ models.updated_at obj = Some (updated_at r)
  /\ (exists v, models.result obj = Some v
                /\ float_item v = Some (result r)).

End schemas.

(** * Properties *)

(** ** Strings and the dict of classes *)

Lemma lower_char_idem (c : ascii) : lower_char (lower_char c) = lower_char c.
Proof. destruct c as [[] [] [] [] [] [] [] []]; reflexivity. Qed.

Lemma lower_idem (s : string) : lower (lower s) = lower s.
Proof.
  induction s as [| c rest IH]; simpl.
  - reflexivity.
  - now rewrite lower_char_idem, IH.
Qed.

Lemma dict_get_classes_inv (s : string) (k : models.CalculationClass) :
  dict_get models.calculation_classes s = Some k ->
  (s = "addition" /\ k = models.Addition) \/
  (s = "subtraction" /\ k = models.Subtraction) \/
  (s = "multiplication" /\ k = models.Multiplication) \/
  (s = "division" /\ k = models.Division).
Proof.
  unfold models.calculation_classes, dict_get.
  repeat
    match goal with
    | |- context [String.eqb ?a s] => destruct (String.eqb_spec a s)
    end;
    intros E; try discriminate E; injection E as E; subst; tauto.
Qed.

Lemma known_tags_inv (s : string) :
  In s models.known_tags ->
  s = "addition" \/ s = "subtraction" \/ s = "multiplication" \/ s = "division".
Proof. simpl. intuition auto. Qed.

Lemma dict_get_classes_None (s : string) :
  ~ In s models.known_tags -> dict_get models.calculation_classes s = None.
Proof.
  intros Hs. destruct (dict_get models.calculation_classes s) as [k|] eqn:E.
  - exfalso. apply Hs. apply dict_get_classes_inv in E.
    simpl. intuition (subst; auto).
  - reflexivity.
Qed.

Lemma dict_get_classes_Some (s : string) :
  In s models.known_tags ->
  exists k, dict_get models.calculation_classes s = Some k
            /\ models.polymorphic_identity k = s
            /\ In k models.variants.
Proof.
  intros Hs. apply known_tags_inv in Hs.
  destruct Hs as [-> | [-> | [-> | ->]]];
    [ exists models.Addition | exists models.Subtraction
    | exists models.Multiplication | exists models.Division ];
    simpl; auto 10.
Qed.

Lemma known_tags_dec (s : string) :
  {In s models.known_tags} + {~ In s models.known_tags}.
Proof. apply in_dec. apply string_dec. Qed.

(** ** What the arithmetic can raise *)

Lemma finite_float_raises (sf : spec_float) (e : exn) :
  finite_float sf = inl e -> e = OverflowError.
Proof. destruct sf; simpl; intros E; try discriminate E; now injection E. Qed.

Lemma to_float_raises (v : pynum) (e : exn) :
  to_float v = inl e -> e = OverflowError.
Proof.
  destruct v as [n | x]; simpl; [| discriminate].
  apply finite_float_raises.
Qed.

Lemma float_op_raises (op : float -> float -> float) (a b : pynum) (e : exn) :
  float_op op a b = inl e -> e = OverflowError.
Proof.
  unfold float_op.
  destruct (to_float a) as [ea | x] eqn:Ea; simpl.
  - intros E. injection E as <-. now apply to_float_raises in Ea.
  - destruct (to_float b) as [eb | y] eqn:Eb; simpl; [| discriminate].
    intros E. injection E as <-. now apply to_float_raises in Eb.
Qed.

Lemma py_add_raises (a b : pynum) (e : exn) :
  py_add a b = inl e -> e = OverflowError.
Proof.
  destruct a, b; simpl; try discriminate; apply float_op_raises.
Qed.

Lemma py_sub_raises (a b : pynum) (e : exn) :
  py_sub a b = inl e -> e = OverflowError.
Proof.
  destruct a, b; simpl; try discriminate; apply float_op_raises.
Qed.

Lemma py_mul_raises (a b : pynum) (e : exn) :
  py_mul a b = inl e -> e = OverflowError.
Proof.
  destruct a, b; simpl; try discriminate; apply float_op_raises.
Qed.

Lemma mixed_truediv_raises (a b : pynum) (e : exn) :
  (x <- to_float a ;;
   y <- to_float b ;;
   if eq_zero b then raise ZeroDivisionError
   else ret (PyFloat (PrimFloat.div x y))) = inl e ->
  (e = ZeroDivisionError /\ is_zero b) \/ e = OverflowError.
Proof.
  destruct (to_float a) as [ea | x] eqn:Ea; simpl.
  - intros E. injection E as <-. right. now apply to_float_raises in Ea.
  - destruct (to_float b) as [eb | y] eqn:Eb; simpl.
    + intros E. injection E as <-. right. now apply to_float_raises in Eb.
    + destruct (eq_zero b) eqn:Ez; simpl; [| discriminate].
      intros E. injection E as <-. left. auto.
Qed.

Lemma py_truediv_raises (a b : pynum) (e : exn) :
  py_truediv a b = inl e ->
  (e = ZeroDivisionError /\ is_zero b) \/ e = OverflowError.
Proof.
  destruct a as [m | x], b as [n | y];
    try apply mixed_truediv_raises.
  simpl. destruct (n =? 0)%Z eqn:En; simpl.
  - intros E. injection E as <-. left. unfold is_zero. simpl. auto.
  - destruct (int_truediv m n) as [eq | q] eqn:Eq; simpl; [| discriminate].
    intros E. injection E as <-. right.
    unfold int_truediv in Eq. now apply finite_float_raises in Eq.
Qed.

Lemma py_truediv_nonzero (a b : pynum) (e : exn) :
  nonzero b -> py_truediv a b = inl e -> e = OverflowError.
Proof.
  intros Hb He. apply py_truediv_raises in He.
  destruct He as [[_ Hz] | He]; [| exact He].
  unfold is_zero, nonzero in *. congruence.
Qed.

(** ** The loops *)

Lemma checked_inputs_ok (xs : list pynum) :
  2 <= List.length xs -> models.checked_inputs (PyList xs) = inr xs.
Proof.
  intros Hlen. unfold models.checked_inputs.
  destruct (Nat.ltb_spec (List.length xs) 2); [lia | reflexivity].
Qed.

Lemma checked_inputs_cases (v : pyval) :
  (models.checked_inputs v = inl models.InvalidInputs
   /\ ~ (exists xs, v = PyList xs /\ 2 <= List.length xs))
  \/ (exists xs, v = PyList xs /\ 2 <= List.length xs
                 /\ models.checked_inputs v = inr xs).
Proof.
  destruct v as [| s | x | ys | ys]; simpl;
    try (left; split; [reflexivity | intros [xs [E _]]; discriminate E]).
  destruct (Nat.ltb_spec (List.length ys) 2).
  - left. split; [reflexivity |].
    intros [xs [E Hlen]]. injection E as <-. lia.
  - right. exists ys. auto.
Qed.

Lemma sum_from_fold (xs : list pynum) (acc : pynum) :
  sum_from acc xs = fold_left_exc py_add xs acc.
Proof.
  revert acc. induction xs as [| x rest IH]; intros acc; simpl.
  - reflexivity.
  - destruct (py_add acc x); simpl; auto.
Qed.

Lemma Subtraction_loop_fold (values : list pynum) (result : pynum) :
  models.Subtraction_loop result values = fold_left_exc py_sub values result.
Proof.
  revert result. induction values as [| v rest IH]; intros result; simpl.
  - reflexivity.
  - destruct (py_sub result v); simpl; auto.
Qed.

Lemma Multiplication_loop_fold (values : list pynum) (result : pynum) :
  models.Multiplication_loop result values
  = fold_left_exc py_mul values result.
Proof.
  revert result. induction values as [| v rest IH]; intros result; simpl.
  - reflexivity.
  - destruct (py_mul result v); simpl; auto.
Qed.

Lemma Division_loop_fold (values : list pynum) (result : pynum) :
  Forall nonzero values ->
  models.Division_loop result values
  = fold_left_exc py_truediv values result.
Proof.
  intros Hall. revert result.
  induction Hall as [| v rest Hv _ IH]; intros result; simpl.
  - reflexivity.
  - unfold nonzero in Hv. rewrite Hv.
    destruct (py_truediv result v); simpl; auto.
Qed.

Lemma fold_left_exc_raises (op : pynum -> pynum -> Exc pynum)
  (values : list pynum) (start : pynum) (e : exn) :
  (forall a b e', op a b = inl e' -> e' = OverflowError) ->
  fold_left_exc op values start = inl e -> e = OverflowError.
Proof.
  intros Hop. revert start.
  induction values as [| v rest IH]; intros start; simpl; [discriminate |].
  destruct (op start v) as [e' | acc] eqn:E; simpl.
  - intros Ee. injection Ee as <-. exact (Hop _ _ _ E).
  - apply IH.
Qed.

Lemma fold_left_exc_app (op : pynum -> pynum -> Exc pynum)
  (pre values : list pynum) (start : pynum) :
  fold_left_exc op (pre ++ values) start
  = (acc <- fold_left_exc op pre start ;; fold_left_exc op values acc).
Proof.
  revert start. induction pre as [| v rest IH]; intros start; simpl.
  - reflexivity.
  - destruct (op start v); simpl; auto.
Qed.

Lemma Division_loop_app (pre values : list pynum) (result q : pynum) :
  Forall nonzero pre ->
  models.Division_loop result pre = inr q ->
  models.Division_loop result (pre ++ values) = models.Division_loop q values.
Proof.
  intros Hall. revert result.
  induction Hall as [| v rest Hv _ IH]; intros result; simpl.
  - intros E. now injection E as ->.
  - unfold nonzero in Hv. rewrite Hv.
    destruct (py_truediv result v) as [e | r]; simpl; [discriminate |].
    apply IH.
Qed.

Lemma Division_loop_raises (values : list pynum) (result : pynum) (e : exn) :
  models.Division_loop result values = inl e ->
  (e = models.DivisionByZero /\ Exists is_zero values) \/ e = OverflowError.
Proof.
  revert result. induction values as [| v rest IH]; intros result; simpl;
    [discriminate |].
  destruct (eq_zero v) eqn:Ev; simpl.
  - intros E. injection E as <-. left. split; [reflexivity |].
    now apply Exists_cons_hd.
  - destruct (py_truediv result v) as [e' | r] eqn:Ed; simpl.
    + intros E. injection E as <-. right.
      exact (py_truediv_nonzero result v e' Ev Ed).
    + intros E. destruct (IH r E) as [[-> Hex] | ->]; auto.
Qed.

(** The division-by-zero error is raised at the first zero divisor,
    after the divisions by the divisors before it. *)
Lemma Division_loop_first_zero (values : list pynum) (result : pynum) :
  models.Division_loop result values = inl models.DivisionByZero <->
  exists pre z post q,
    values = pre ++ z :: post
    /\ Forall nonzero pre
    /\ is_zero z
    /\ models.Division_loop result pre = inr q.
Proof.
  split.
  - revert result. induction values as [| v rest IH]; intros result; simpl;
      [discriminate |].
    destruct (eq_zero v) eqn:Ev; simpl.
    + intros _. exists [], v, rest, result. simpl. auto.
    + destruct (py_truediv result v) as [e' | r] eqn:Ed; simpl.
      * intros E. injection E as ->.
        apply (py_truediv_nonzero result v _ Ev) in Ed. discriminate Ed.
      * intros E. destruct (IH r E) as [pre [z [post [q [-> [Hp [Hz Hq]]]]]]].
        exists (v :: pre), z, post, q. simpl.
        rewrite Ev, Ed. simpl. auto.
  - intros [pre [z [post [q [-> [Hp [Hz Hq]]]]]]].
    rewrite (Division_loop_app pre (z :: post) result q Hp Hq).
    simpl. unfold is_zero in Hz. now rewrite Hz.
Qed.

Lemma zero_nonzero_exclusive (values : list pynum) :
  Exists is_zero values -> Forall nonzero values -> False.
Proof.
  intros Hex Hall. apply Exists_exists in Hex. destruct Hex as [v [Hin Hz]].
  rewrite Forall_forall in Hall. specialize (Hall v Hin).
  unfold is_zero, nonzero in *. congruence.
Qed.

Lemma zero_or_nonzero (values : list pynum) :
  Exists is_zero values \/ Forall nonzero values.
Proof.
  induction values as [| v rest [IH | IH]].
  - right. constructor.
  - left. now apply Exists_cons_tl.
  - destruct (eq_zero v) eqn:Ev.
    + left. now apply Exists_cons_hd.
    + right. now constructor.
Qed.

(** ** Lists of floats and lists of ints *)

Lemma float_of_int_0 : float_of_int 0 = inr 0%float.
Proof. reflexivity. Qed.

Lemma float_of_int_1 : float_of_int 1 = inr 1%float.
Proof. reflexivity. Qed.

Lemma sum_from_floats (fs : list float) (a : float) :
  sum_from (PyFloat a) (floats fs)
  = inr (PyFloat (fold_left PrimFloat.add fs a)).
Proof. revert a. induction fs as [| f rest IH]; intros a; simpl; auto. Qed.

Lemma sum_floats (f : float) (fs : list float) :
  sum (floats (f :: fs))
  = inr (PyFloat (fold_left PrimFloat.add (f :: fs) 0%float)).
Proof.
  unfold sum. simpl. unfold float_op. simpl. apply sum_from_floats.
Qed.


Lemma Subtraction_loop_floats (fs : list float) (a : float) :
  models.Subtraction_loop (PyFloat a) (floats fs)
  = inr (PyFloat (fold_left PrimFloat.sub fs a)).
Proof. revert a. induction fs as [| f rest IH]; intros a; simpl; auto. Qed.

Lemma Subtraction_loop_ints (zs : list Z) (a : Z) :
  models.Subtraction_loop (PyInt a) (ints zs)
  = inr (PyInt (fold_left Z.sub zs a)).
Proof. revert a. induction zs as [| z rest IH]; intros a; simpl; auto. Qed.

Lemma Multiplication_loop_from_float (fs : list float) (a : float) :
  models.Multiplication_loop (PyFloat a) (floats fs)
  = inr (PyFloat (fold_left PrimFloat.mul fs a)).
Proof. revert a. induction fs as [| f rest IH]; intros a; simpl; auto. Qed.

Lemma Multiplication_loop_floats (f : float) (fs : list float) :
  models.Multiplication_loop (PyInt 1) (floats (f :: fs))
  = inr (PyFloat (fold_left PrimFloat.mul (f :: fs) 1%float)).
Proof.
  simpl. unfold float_op. simpl. apply Multiplication_loop_from_float.
Qed.


Lemma Division_loop_floats (fs : list float) (a : float) :
  Forall nonzero (floats fs) ->
  models.Division_loop (PyFloat a) (floats fs)
  = inr (PyFloat (fold_left PrimFloat.div fs a)).
Proof.
  revert a. induction fs as [| f rest IH]; intros a Hall; simpl.
  - reflexivity.
  - inversion Hall as [| ? ? Hf Hrest]; subst.
    unfold nonzero in Hf. simpl in Hf. rewrite Hf. simpl. now apply IH.
Qed.

(** On floats the division loop has two outcomes only. *)
Lemma Division_loop_floats_cases (fs : list float) (a : float) :
  (Exists is_zero (floats fs)
   /\ models.Division_loop (PyFloat a) (floats fs) = inl models.DivisionByZero)
  \/ (Forall nonzero (floats fs)
      /\ models.Division_loop (PyFloat a) (floats fs)
         = inr (PyFloat (fold_left PrimFloat.div fs a))).
Proof.
  destruct (zero_or_nonzero (floats fs)) as [Hex | Hall].
  - left. split; [exact Hex |].
    revert a. induction fs as [| f rest IH]; intros a; [inversion Hex |].
    simpl. destruct (PrimFloat.eqb f 0) eqn:Ef; simpl; [reflexivity |].
    apply IH.
    inversion Hex as [? ? Hz | ? ? Hrest]; subst; [| exact Hrest].
    unfold is_zero in Hz. simpl in Hz. congruence.
  - right. split; [exact Hall | now apply Division_loop_floats].
Qed.

Lemma existsb_float_zero (fs : list float) :
  existsb (fun x => PrimFloat.eqb x 0) fs = true <-> Exists is_zero (floats fs).
Proof.
  induction fs as [| f rest IH]; simpl.
  - split; [discriminate | intros Hex; inversion Hex].
  - rewrite orb_true_iff, IH. split.
    + intros [Hf | Hrest]; [now apply Exists_cons_hd | now apply Exists_cons_tl].
    + intros Hex. inversion Hex as [? ? Hz | ? ? Hrest]; subst; auto.
Qed.

Lemma tl_floats (fs : list float) : tl (floats fs) = floats (tl fs).
Proof. destruct fs; reflexivity. Qed.

(** ** The variants on a list of at least two numbers *)

Section Variants.

Variable self : models.Calculation.
Variable xs : list pynum.
Hypothesis Hinputs : models.inputs self = PyList xs.
Hypothesis Hlen : 2 <= List.length xs.

Lemma Addition_get_result_sum :
  models.Addition_get_result self = sum xs.
Proof.
  unfold models.Addition_get_result.
  now rewrite Hinputs, (checked_inputs_ok xs Hlen).
Qed.

Lemma Multiplication_get_result_loop :
  models.Multiplication_get_result self
  = models.Multiplication_loop (PyInt 1) xs.
Proof.
  unfold models.Multiplication_get_result.
  now rewrite Hinputs, (checked_inputs_ok xs Hlen).
Qed.

Lemma Subtraction_get_result_loop :
  exists x0 rest, xs = x0 :: rest
    /\ models.Subtraction_get_result self = models.Subtraction_loop x0 rest.
Proof.
  destruct xs as [| x0 rest] eqn:E; [simpl in Hlen; lia |].
  exists x0, rest. split; [reflexivity |].
  unfold models.Subtraction_get_result.
  now rewrite Hinputs, (checked_inputs_ok _ Hlen).
Qed.

Lemma Division_get_result_loop :
  exists x0 rest, xs = x0 :: rest
    /\ models.Division_get_result self = models.Division_loop x0 rest.
Proof.
  destruct xs as [| x0 rest] eqn:E; [simpl in Hlen; lia |].
  exists x0, rest. split; [reflexivity |].
  unfold models.Division_get_result.
  now rewrite Hinputs, (checked_inputs_ok _ Hlen).
Qed.

End Variants.

(** ** The factory *)

Lemma get_result_set_result (instance : models.Calculation) (value : pynum) :
  models.get_result (models.set_result instance value)
  = models.get_result instance.
Proof. reflexivity. Qed.

Lemma create_known (calculation_type : string) (k : models.CalculationClass)
  (user_id : UUID) (inputs : pyval) :
  dict_get models.calculation_classes (lower calculation_type) = Some k ->
  models.create calculation_type user_id inputs
  = (value <- models.get_result (models.init k user_id inputs) ;;
     ret (models.set_result (models.init k user_id inputs) value)).
Proof. intros E. unfold models.create. now rewrite E. Qed.

Lemma create_inr (calculation_type : string) (user_id : UUID)
  (inputs : pyval) (c : models.Calculation) :
  models.create calculation_type user_id inputs = inr c ->
  exists k value,
    dict_get models.calculation_classes (lower calculation_type) = Some k
    /\ models.get_result (models.init k user_id inputs) = inr value
    /\ c = models.set_result (models.init k user_id inputs) value.
Proof.
  unfold models.create.
  destruct (dict_get models.calculation_classes (lower calculation_type))
    as [k |] eqn:E; [| discriminate].
  destruct (models.get_result (models.init k user_id inputs))
    as [e | value] eqn:G; simpl; [discriminate |].
  intros C. injection C as <-. exists k, value. auto.
Qed.

Lemma create_division (user_id : UUID) (inputs : pyval) :
  models.create "division" user_id inputs
  = (value <- models.Division_get_result
                (models.init models.Division user_id inputs) ;;
     ret (models.set_result (models.init models.Division user_id inputs) value)).
Proof. reflexivity. Qed.

(** C1: whenever [create] returns a record, its [result] is present and
    is the value [get_result] computes for that record, that is for the
    variant the tag selected on the inputs that were passed, which are
    the ones stored. *)
Theorem create_result_is_get_result :
  forall (calculation_type : string) (user_id : UUID) (inputs : pyval)
         (c : models.Calculation),
    models.create calculation_type user_id inputs = inr c ->
    exists value : pynum,
      models.result c = Some value
      /\ models.get_result c = inr value
      /\ models.inputs c = inputs
      /\ models.type c = lower calculation_type
      /\ models.type c = models.polymorphic_identity (models.class_ c)
      /\ models.user_id c = Some user_id.
Proof.
  intros calculation_type user_id inputs c Hc.
  apply create_inr in Hc. destruct Hc as [k [value [Hk [Hv ->]]]].
  exists value. rewrite get_result_set_result. simpl.
  repeat split; auto.
  apply dict_get_classes_inv in Hk.
  destruct Hk as [[-> ->] | [[-> ->] | [[-> ->] | [-> ->]]]]; reflexivity.
Qed.

Lemma create_result_is_get_result_witness :
  exists value : pynum,
    Some (PyInt 6) = Some value
    /\ models.get_result
         (models.set_result
            (models.init models.Addition 7%N (PyList (ints [1; 2; 3]%Z)))
            (PyInt 6))
       = inr value.
Proof.
  destruct (create_result_is_get_result "ADDITION" 7%N
              (PyList (ints [1; 2; 3]%Z))
              (models.set_result
                 (models.init models.Addition 7%N (PyList (ints [1; 2; 3]%Z)))
                 (PyInt 6)) eq_refl)
    as [value [Hr [Hg _]]].
  exists value. split; [exact Hr | exact Hg].
Defined.

Lemma bind_ret_inl {A B : Type} (m : Exc A) (f : A -> B) (e : exn) :
  (a <- m ;; ret (f a)) = inl e <-> m = inl e.
Proof.
  destruct m; simpl; split; intros E; try discriminate E;
    injection E as ->; reflexivity.
Qed.

Lemma create_division_loop (user_id : UUID) (xs : list pynum) :
  2 <= List.length xs ->
  exists x0 rest,
    xs = x0 :: rest
    /\ models.create "division" user_id (PyList xs)
       = (value <- models.Division_loop x0 rest ;;
          ret (models.set_result
                 (models.init models.Division user_id (PyList xs)) value)).
Proof.
  intros Hlen. rewrite create_division.
  destruct (Division_get_result_loop
              (models.init models.Division user_id (PyList xs)) xs
              eq_refl Hlen) as [x0 [rest [E ->]]].
  exists x0, rest. auto.
Qed.

(** C2, as the code has it: on a list of at least two numbers,
    [create('division', ...)] raises the division-by-zero [ValueError]
    exactly when some element after the first compares equal to zero and
    the divisions by the elements before the first such one all return;
    on floats, whose division does not raise, that is exactly when some
    element after the first compares equal to zero, and a record is
    returned otherwise.  A zero first element is let through: [[0, 5, 2]]
    gives result 0, [[100, 0]] is refused. *)
Theorem create_division_zero_divisor :
  (forall (user_id : UUID) (xs : list pynum),
      2 <= List.length xs ->
      (models.create "division" user_id (PyList xs) = inl models.DivisionByZero
       <-> exists x0 pre z post q,
             xs = x0 :: pre ++ z :: post
             /\ Forall nonzero pre
             /\ is_zero z
             /\ models.Division_loop x0 pre = inr q)
      /\ (models.create "division" user_id (PyList xs)
          = inl models.DivisionByZero ->
          Exists is_zero (tl xs)))
  /\ (forall (user_id : UUID) (fs : list float),
         2 <= List.length fs ->
         (models.create "division" user_id (PyList (floats fs))
          = inl models.DivisionByZero
          <-> Exists is_zero (tl (floats fs)))
         /\ (~ Exists is_zero (tl (floats fs)) ->
             exists c,
               models.create "division" user_id (PyList (floats fs)) = inr c))
  /\ (forall user_id : UUID,
         exists c,
           models.create "division" user_id (PyList (ints [0; 5; 2]%Z)) = inr c
           /\ models.result c = Some (PyFloat 0))
  /\ (forall user_id : UUID,
         models.create "division" user_id (PyList (ints [100; 0]%Z))
         = inl models.DivisionByZero).
Proof.
  split; [| split; [| split]].
  - intros user_id xs Hlen.
    destruct (create_division_loop user_id xs Hlen) as [x0 [rest [-> ->]]].
    rewrite bind_ret_inl. split.
    + rewrite Division_loop_first_zero. split.
      * intros [pre [z [post [q [-> H]]]]]. exists x0, pre, z, post, q. auto.
      * intros [y0 [pre [z [post [q [E H]]]]]]. injection E as <- ->.
        exists pre, z, post, q. auto.
    + intros E. apply Division_loop_raises in E.
      destruct E as [[_ Hex] | E]; [exact Hex | discriminate E].
  - intros user_id fs Hlen.
    assert (Hlen' : 2 <= List.length (floats fs))
      by (unfold floats; now rewrite length_map).
    destruct (create_division_loop user_id (floats fs) Hlen')
      as [x0 [rest [E ->]]].
    destruct fs as [| f0 fs']; [discriminate E |].
    simpl in E. injection E as <- <-. simpl tl.
    rewrite bind_ret_inl.
    destruct (Division_loop_floats_cases fs' f0) as [[Hex ->] | [Hall ->]].
    + split; [tauto | intros Hno; contradiction].
    + split.
      * split; [discriminate |].
        intros Hex. exfalso. exact (zero_nonzero_exclusive _ Hex Hall).
      * intros _. eexists. reflexivity.
  - intros user_id. eexists. split; reflexivity.
  - intros user_id. reflexivity.
Qed.

Lemma create_division_zero_divisor_witness :
  models.create "division" 7%N (PyList (floats [100; 5; 0; 2]%float))
  = inl models.DivisionByZero.
Proof.
  apply (proj1 (proj2 create_division_zero_divisor) 7%N
           [100; 5; 0; 2]%float).
  - simpl. lia.
  - simpl. apply Exists_cons_tl. apply Exists_cons_hd. reflexivity.
Defined.

(** C2 as stated fails on ints: in [[10**400, 3, 0]] an element after
    the first is zero, yet the division by 3, which comes first,
    overflows, and the error is not the division-by-zero one. *)
Lemma create_division_zero_divisor_counterexample :
  2 <= List.length (ints [10 ^ 400; 3; 0]%Z)
  /\ Exists is_zero (tl (ints [10 ^ 400; 3; 0]%Z))
  /\ models.create "division" 7%N (PyList (ints [10 ^ 400; 3; 0]%Z))
     = inl OverflowError
  /\ models.create "division" 7%N (PyList (ints [10 ^ 400; 3; 0]%Z))
     <> inl models.DivisionByZero.
Proof.
  split; [simpl; lia |]. split.
  - simpl. apply Exists_cons_tl. apply Exists_cons_hd. reflexivity.
  - assert (E : models.create "division" 7%N (PyList (ints [10 ^ 400; 3; 0]%Z))
                = inl OverflowError) by (vm_compute; reflexivity).
    split; [exact E |]. rewrite E. discriminate.
Qed.

(** C3: a tag whose lower-cased form is not a key of the dict of classes
    makes [create] raise the [ValueError] whose message ends with the tag
    as it was passed; a record that [create] returns is an instance of
    one of the four subclasses, the one registered under the lower-cased
    tag, and each of the four can be obtained; ['modulus'] is refused
    by name. *)
Theorem create_unsupported_type :
  (forall (calculation_type : string) (user_id : UUID) (inputs : pyval),
      ~ In (lower calculation_type)
           ["addition"; "subtraction"; "multiplication"; "division"] ->
      models.create calculation_type user_id inputs
      = inl (ValueError ("Unsupported calculation type: " ++ calculation_type)))
  /\ (forall (calculation_type : string) (user_id : UUID) (inputs : pyval)
             (c : models.Calculation),
         models.create calculation_type user_id inputs = inr c ->
         In (models.class_ c)
            [models.Addition; models.Subtraction;
             models.Multiplication; models.Division]
         /\ dict_get models.calculation_classes (lower calculation_type)
            = Some (models.class_ c))
  /\ (forall (k : models.CalculationClass) (user_id : UUID),
         In k [models.Addition; models.Subtraction;
               models.Multiplication; models.Division] ->
         exists c,
           models.create (models.polymorphic_identity k) user_id
             (PyList (ints [1; 2]%Z)) = inr c
           /\ models.class_ c = k)
  /\ (forall user_id : UUID,
         models.create "modulus" user_id (PyList (ints [10; 3]%Z))
         = inl (ValueError "Unsupported calculation type: modulus")).
Proof.
  split; [| split; [| split]].
  - intros calculation_type user_id inputs Hno.
    unfold models.create.
    now rewrite (dict_get_classes_None (lower calculation_type) Hno).
  - intros calculation_type user_id inputs c Hc.
    apply create_inr in Hc. destruct Hc as [k [value [Hk [_ ->]]]].
    simpl. split; [| exact Hk].
    apply dict_get_classes_inv in Hk.
    destruct Hk as [[_ ->] | [[_ ->] | [[_ ->] | [_ ->]]]]; simpl; auto.
  - intros k user_id Hk. simpl in Hk.
    destruct Hk as [<- | [<- | [<- | [<- | []]]]];
      eexists; split; reflexivity.
  - intros user_id. reflexivity.
Qed.

Lemma create_unsupported_type_witness :
  models.create "Modulo" 7%N (PyList (ints [10; 3]%Z))
  = inl (ValueError "Unsupported calculation type: Modulo").
Proof.
  apply (proj1 create_unsupported_type "Modulo" 7%N).
  simpl. intros [E | [E | [E | [E | []]]]]; discriminate E.
Defined.




(** C5, as the code has it: on a list of at least two numbers
    [Subtraction.get_result] is the left fold of [-] that starts at the
    first element and goes through the others in order, and
    [Division.get_result], when none of the others compares equal to
    zero, the left fold of [/]; a step of either fold can raise
    [OverflowError] on ints beyond the range of float, and nothing else
    is raised.  On floats both return the float fold, on ints the
    difference is the exact one.  The order matters: [[10, 4]] gives 6
    and [[4, 10]] gives -6. *)
Theorem subtraction_division_left_fold :
  (forall (self : models.Calculation) (x0 : pynum) (rest : list pynum),
      models.inputs self = PyList (x0 :: rest) ->
      2 <= List.length (x0 :: rest) ->
      models.Subtraction_get_result self = fold_left_exc py_sub rest x0
      /\ (forall e, models.Subtraction_get_result self = inl e ->
                    e = OverflowError)
      /\ (Forall nonzero rest ->
          models.Division_get_result self = fold_left_exc py_truediv rest x0
          /\ (forall e, models.Division_get_result self = inl e ->
                        e = OverflowError)))
  /\ (forall (self : models.Calculation) (f0 : float) (fs : list float),
         models.inputs self = PyList (floats (f0 :: fs)) ->
         2 <= List.length (f0 :: fs) ->
         models.Subtraction_get_result self
         = inr (PyFloat (fold_left PrimFloat.sub fs f0))
         /\ (Forall nonzero (floats fs) ->
             models.Division_get_result self
             = inr (PyFloat (fold_left PrimFloat.div fs f0))))
  /\ (forall (self : models.Calculation) (z0 : Z) (zs : list Z),
         models.inputs self = PyList (ints (z0 :: zs)) ->
         2 <= List.length (z0 :: zs) ->
         models.Subtraction_get_result self
         = inr (PyInt (fold_left Z.sub zs z0)))
  /\ (forall user_id : UUID,
         exists c,
           models.create "subtraction" user_id (PyList (ints [10; 4]%Z)) = inr c
           /\ models.result c = Some (PyInt 6))
  /\ (forall user_id : UUID,
         exists c,
           models.create "subtraction" user_id (PyList (ints [4; 10]%Z)) = inr c
           /\ models.result c = Some (PyInt (-6))).
Proof.
  split; [| split; [| split; [| split]]].
  - intros self x0 rest Hin Hlen.
    destruct (Subtraction_get_result_loop self _ Hin Hlen)
      as [y0 [ys [E ->]]].
    injection E as <- <-. rewrite Subtraction_loop_fold.
    split; [reflexivity |].
    split; [intros e He;
            apply (fold_left_exc_raises py_sub rest x0 e py_sub_raises He) |].
    intros Hall.
    destruct (Division_get_result_loop self _ Hin Hlen) as [y0 [ys [E ->]]].
    injection E as <- <-.
    split; [now apply Division_loop_fold |].
    intros e He. apply Division_loop_raises in He.
    destruct He as [[_ Hex] | He]; [| exact He].
    exfalso. exact (zero_nonzero_exclusive rest Hex Hall).
  - intros self f0 fs Hin Hlen.
    assert (Hlen' : 2 <= List.length (floats (f0 :: fs)))
      by (unfold floats; now rewrite length_map).
    destruct (Subtraction_get_result_loop self _ Hin Hlen')
      as [y0 [ys [E ->]]].
    simpl in E. injection E as <- <-.
    split; [apply Subtraction_loop_floats |].
    intros Hall.
    destruct (Division_get_result_loop self _ Hin Hlen') as [y0 [ys [E ->]]].
    simpl in E. injection E as <- <-. now apply Division_loop_floats.
  - intros self z0 zs Hin Hlen.
    assert (Hlen' : 2 <= List.length (ints (z0 :: zs)))
      by (unfold ints; now rewrite length_map).
    destruct (Subtraction_get_result_loop self _ Hin Hlen')
      as [y0 [ys [E ->]]].
    simpl in E. injection E as <- <-. apply Subtraction_loop_ints.
  - intros user_id. eexists. split; reflexivity.
  - intros user_id. eexists. split; reflexivity.
Qed.

Lemma subtraction_division_left_fold_witness :
  models.Subtraction_get_result
    (models.init models.Subtraction 7%N (PyList (floats [100; 2; 5]%float)))
  = inr (PyFloat 93)
  /\ models.Division_get_result
       (models.init models.Division 7%N (PyList (floats [100; 2; 5]%float)))
     = inr (PyFloat 10).
Proof.
  pose proof (proj1 (proj2 subtraction_division_left_fold)
                (models.init models.Division 7%N
                   (PyList (floats [100; 2; 5]%float)))
                100%float [2; 5]%float eq_refl ltac:(simpl; lia)) as [_ Hd].
  pose proof (proj1 (proj2 subtraction_division_left_fold)
                (models.init models.Subtraction 7%N
                   (PyList (floats [100; 2; 5]%float)))
                100%float [2; 5]%float eq_refl ltac:(simpl; lia)) as [Hs _].
  split.
  - exact Hs.
  - apply Hd. repeat constructor.
Defined.

(** C5 as stated fails on ints beyond the range of float: [[10**400, 1]]
    has no zero divisor and its division does not return, and the
    subtraction of [[10**400, 1.0]] does not return either. *)
Lemma subtraction_division_left_fold_counterexample :
  2 <= List.length (ints [10 ^ 400; 1]%Z)
  /\ Forall nonzero (tl (ints [10 ^ 400; 1]%Z))
  /\ models.Division_get_result
       (models.init models.Division 7%N (PyList (ints [10 ^ 400; 1]%Z)))
     = inl OverflowError
  /\ models.Subtraction_get_result
       (models.init models.Subtraction 7%N
          (PyList [PyInt (10 ^ 400); PyFloat 1]))
     = inl OverflowError.
Proof.
  split; [simpl; lia |]. split; [repeat constructor |].
  split; vm_compute; reflexivity.
Qed.

(** ** The boundary schema *)

Lemma float_item_float (x : float) : schemas.float_item (PyFloat x) = Some x.
Proof. reflexivity. Qed.

Lemma float_list_floats (fs : list float) :
  schemas.float_list (floats fs) = Some fs.
Proof.
  induction fs as [| f rest IH]; [reflexivity |].
  change (schemas.float_list (floats (f :: rest)))
    with (match schemas.float_item (PyFloat f),
                schemas.float_list (floats rest) with
          | Some y, Some ys => Some (y :: ys)
          | _, _ => None
          end).
  now rewrite IH.
Qed.

Lemma float_list_length (xs : list pynum) (ys : list float) :
  schemas.float_list xs = Some ys -> List.length ys = List.length xs.
Proof.
  revert ys. induction xs as [| x rest IH]; intros ys; simpl.
  - intros E. now injection E as <-.
  - destruct (schemas.float_item x) as [y |]; [| discriminate].
    destruct (schemas.float_list rest) as [ys' |]; [| discriminate].
    intros E. injection E as <-. simpl. now rewrite (IH ys' eq_refl).
Qed.

(** The items are all accepted exactly when no entry is reported. *)
Lemma validate_items_spec (loc : string) (xs : list pynum) (index : nat) :
  match schemas.float_list xs with
  | Some ys => schemas.validate_items loc index xs = ([], ys)
  | None =>
      fst (schemas.validate_items loc index xs) <> []
      /\ Forall (schemas.item_entry loc) (fst (schemas.validate_items loc index xs))
  end.
Proof.
  revert index. induction xs as [| x rest IH]; intros index; simpl.
  - reflexivity.
  - specialize (IH (S index)).
    destruct (schemas.validate_items loc (S index) rest) as [errors ys'] eqn:V.
    destruct (schemas.float_item x) as [y |];
      destruct (schemas.float_list rest) as [ys |]; simpl in *.
    + injection IH as -> ->. reflexivity.
    + exact IH.
    + split; [discriminate |].
      injection IH as -> _. constructor; [now exists index | constructor].
    + split; [discriminate |]. destruct IH as [_ IH].
      constructor; [now exists index | exact IH].
Qed.

Lemma inputs_field_cases (v : pyval) :
  ((forall xs, v <> PyList xs)
   /\ schemas.inputs_field v
      = inl (ValidationError [value_error "inputs" "Input should be a valid list"]))
  \/ (exists xs errors,
         v = PyList xs /\ schemas.float_list xs = None
         /\ schemas.inputs_field v = inl (ValidationError errors)
         /\ errors <> []
         /\ Forall (schemas.item_entry "inputs") errors)
  \/ (exists xs ys,
         v = PyList xs /\ schemas.float_list xs = Some ys
         /\ List.length ys < 2
         /\ schemas.inputs_field v
            = inl (ValidationError [too_short "inputs" 2 (List.length ys)]))
  \/ (exists xs ys,
         v = PyList xs /\ schemas.float_list xs = Some ys
         /\ 2 <= List.length ys
         /\ schemas.inputs_field v = inr ys).
Proof.
  unfold schemas.inputs_field.
  destruct v as [| s | x | zs | xs];
    try (left; split; [intros xs; discriminate | reflexivity]).
  right. simpl.
  pose proof (validate_items_spec "inputs" xs 0) as Hspec.
  destruct (schemas.float_list xs) as [ys |] eqn:Efl.
  - rewrite Hspec. right.
    destruct (Nat.ltb_spec (List.length ys) 2).
    + left. exists xs, ys. auto.
    + right. exists xs, ys. auto.
  - left. destruct (schemas.validate_items "inputs" 0 xs) as [errors ys].
    simpl in Hspec. destruct Hspec as [Hne Hall].
    exists xs, errors. destruct errors as [| d errors']; [contradiction |].
    auto.
Qed.

Lemma existsb_is_zero (values : list pynum) :
  existsb eq_zero values = true <-> Exists is_zero values.
Proof.
  rewrite existsb_exists, Exists_exists. reflexivity.
Qed.

Lemma wrap_inr {A : Type} (loc : string) (m : Exc A) (a : A) :
  schemas.wrap loc m = inr a -> m = inr a.
Proof.
  destruct m as [[] |]; cbv [schemas.wrap raise]; intros E;
    try discriminate E; exact E.
Qed.

Lemma both_inr {A B : Type} (a : Exc A) (b : Exc B) (p : A * B) :
  schemas.both a b = inr p -> a = inr (fst p) /\ b = inr (snd p).
Proof.
  destruct a as [ea | x], b as [eb | y]; simpl; intros E; try discriminate E.
  injection E as <-. auto.
Qed.

Lemma both_error_right {A B : Type} (a : Exc A) (b : Exc B)
  (errors : list ErrorDetails) :
  b = inl (ValidationError errors) ->
  schemas.both a b = inl (ValidationError (schemas.errors_of a ++ errors)).
Proof. intros ->. destruct a; reflexivity. Qed.

Lemma inputs_field_inr (v : pyval) (ys : list float) :
  schemas.inputs_field v = inr ys ->
  exists xs, v = PyList xs /\ schemas.float_list xs = Some ys
             /\ 2 <= List.length ys.
Proof.
  intros E.
  destruct (inputs_field_cases v)
    as [[_ H] | [[xs [errors [_ [_ [H _]]]]]
                | [[xs [zs [_ [_ [_ H]]]]] | [xs [zs [Hv [Hfl [Hlen H]]]]]]]];
    rewrite H in E; try discriminate E.
  injection E as <-. exists xs. auto.
Qed.

Lemma inputs_field_ok (xs : list pynum) (ys : list float) :
  schemas.float_list xs = Some ys ->
  2 <= List.length ys ->
  schemas.inputs_field (PyList xs) = inr ys.
Proof.
  intros Hfl Hlen.
  destruct (inputs_field_cases (PyList xs))
    as [[Hno _] | [[xs' [errors [E [Hn _]]]]
                  | [[xs' [zs [E [Hs [Hshort _]]]]] | [xs' [zs [E [Hs [_ H]]]]]]]].
  - exfalso. exact (Hno xs eq_refl).
  - injection E as <-. congruence.
  - injection E as <-. rewrite Hfl in Hs. injection Hs as <-. lia.
  - injection E as <-. rewrite Hfl in Hs. injection Hs as <-. exact H.
Qed.

Lemma type_field_known (tag : string) (t : schemas.CalculationType) :
  lower tag = schemas.value t -> schemas.type_field (PyStr tag) = inr t.
Proof.
  intros E. unfold schemas.type_field, schemas.validate_type.
  rewrite E. destruct t; reflexivity.
Qed.

Lemma type_field_lower (tag : string) :
  schemas.type_field (PyStr tag) = schemas.type_field (PyStr (lower tag)).
Proof.
  unfold schemas.type_field, schemas.validate_type.
  now rewrite lower_idem.
Qed.

Lemma type_field_inr (v : pyval) (t : schemas.CalculationType) :
  schemas.type_field v = inr t ->
  exists s, v = PyStr s /\ schemas.value t = lower s.
Proof.
  unfold schemas.type_field, schemas.validate_type.
  destruct v as [| s | x | ys | ys]; try (simpl; discriminate).
  destruct (negb (existsb (String.eqb (lower s)) schemas.allowed));
    simpl; [discriminate |].
  destruct (schemas.CalculationType_of_value (lower s)) as [e |] eqn:F;
    simpl; [| discriminate].
  intros E. injection E as <-. exists s. split; [reflexivity |].
  apply find_some in F. destruct F as [_ F].
  now apply String.eqb_eq in F.
Qed.

Lemma validate_inputs_cases (self : schemas.CalculationBase) :
  2 <= List.length (schemas.inputs self) ->
  (schemas.type self = schemas.DIVISION
   /\ Exists is_zero (floats (tl (schemas.inputs self)))
   /\ schemas.validate_inputs self = inl (ValueError "Cannot divide by zero"))
  \/ ((schemas.type self = schemas.DIVISION ->
       Forall nonzero (floats (tl (schemas.inputs self))))
      /\ schemas.validate_inputs self = inr self).
Proof.
  intros Hlen. unfold schemas.validate_inputs.
  destruct (Nat.ltb_spec (List.length (schemas.inputs self)) 2); [lia |].
  destruct (schemas.type self) eqn:Et; simpl;
    try (right; split; [discriminate | reflexivity]).
  unfold slice_from_1.
  destruct (existsb (fun x => PrimFloat.eqb x 0) (tl (schemas.inputs self)))
    eqn:E.
  - left. apply existsb_float_zero in E. auto.
  - right. split; [| reflexivity]. intros _.
    destruct (zero_or_nonzero (floats (tl (schemas.inputs self))))
      as [Hex | Hall]; [| exact Hall].
    apply existsb_float_zero in Hex. congruence.
Qed.

Lemma CalculationBase_validate_known (tag : string)
  (t : schemas.CalculationType) (xs : list pynum) (ys : list float) :
  lower tag = schemas.value t ->
  schemas.float_list xs = Some ys ->
  2 <= List.length ys ->
  schemas.CalculationBase_validate (PyStr tag) (PyList xs)
  = schemas.wrap ""
      (schemas.validate_inputs {| schemas.type := t; schemas.inputs := ys |}).
Proof.
  intros Et Hfl Hlen. unfold schemas.CalculationBase_validate.
  now rewrite (type_field_known tag t Et), (inputs_field_ok xs ys Hfl Hlen).
Qed.

Lemma CalculationBase_validate_inr (raw_type raw_inputs : pyval)
  (m : schemas.CalculationBase) :
  schemas.CalculationBase_validate raw_type raw_inputs = inr m ->
  schemas.type_field raw_type = inr (schemas.type m)
  /\ (exists xs, raw_inputs = PyList xs
                 /\ schemas.float_list xs = Some (schemas.inputs m))
  /\ 2 <= List.length (schemas.inputs m)
  /\ (schemas.type m = schemas.DIVISION ->
      Forall nonzero (floats (tl (schemas.inputs m)))).
Proof.
  unfold schemas.CalculationBase_validate.
  destruct (schemas.both (schemas.type_field raw_type)
              (schemas.inputs_field raw_inputs)) as [e | fields] eqn:Ef;
    simpl; [discriminate |].
  intros Hm. apply wrap_inr in Hm.
  apply both_inr in Ef. destruct Ef as [Ht Hi].
  apply inputs_field_inr in Hi. destruct Hi as [xs [Hraw [Hfl Hlen]]].
  destruct (validate_inputs_cases
              {| schemas.type := fst fields; schemas.inputs := snd fields |}
              Hlen) as [[_ [_ E]] | [Hdiv E]];
    rewrite E in Hm; [discriminate |].
  injection Hm as <-. simpl in *. eauto 6.
Qed.

(** ** The guard of the variants *)

Lemma guard_rejects (self : models.Calculation) :
  ~ well_shaped (models.inputs self) ->
  models.Addition_get_result self = inl models.InvalidInputs
  /\ models.Subtraction_get_result self = inl models.InvalidInputs
  /\ models.Multiplication_get_result self = inl models.InvalidInputs
  /\ models.Division_get_result self = inl models.InvalidInputs.
Proof.
  intros Hbad.
  destruct (checked_inputs_cases (models.inputs self))
    as [[E _] | [xs [Ein [Hlen _]]]].
  - unfold models.Addition_get_result, models.Subtraction_get_result,
      models.Multiplication_get_result, models.Division_get_result.
    rewrite E. simpl. auto.
  - exfalso. apply Hbad. exists xs. auto.
Qed.

(** Past the guard, what a variant raises comes from its arithmetic or,
    for division, from its own zero test. *)
Lemma variants_raise (self : models.Calculation) :
  well_shaped (models.inputs self) ->
  (forall e, models.Addition_get_result self = inl e -> e = OverflowError)
  /\ (forall e, models.Subtraction_get_result self = inl e ->
                e = OverflowError)
  /\ (forall e, models.Multiplication_get_result self = inl e ->
                e = OverflowError)
  /\ (forall e, models.Division_get_result self = inl e ->
                e = models.DivisionByZero \/ e = OverflowError).
Proof.
  intros [xs [Ein Hlen]].
  rewrite (Addition_get_result_sum self xs Ein Hlen).
  rewrite (Multiplication_get_result_loop self xs Ein Hlen).
  destruct (Subtraction_get_result_loop self xs Ein Hlen) as [x0 [rest [_ ->]]].
  destruct (Division_get_result_loop self xs Ein Hlen) as [y0 [ys [_ ->]]].
  unfold sum. rewrite sum_from_fold, Subtraction_loop_fold,
    Multiplication_loop_fold.
  split; [| split; [| split]]; intros e He.
  - exact (fold_left_exc_raises py_add _ _ e py_add_raises He).
  - exact (fold_left_exc_raises py_sub _ _ e py_sub_raises He).
  - exact (fold_left_exc_raises py_mul _ _ e py_mul_raises He).
  - apply Division_loop_raises in He. tauto.
Qed.

Lemma guard_passes (self : models.Calculation) :
  well_shaped (models.inputs self) ->
  models.Addition_get_result self <> inl models.InvalidInputs
  /\ models.Subtraction_get_result self <> inl models.InvalidInputs
  /\ models.Multiplication_get_result self <> inl models.InvalidInputs
  /\ models.Division_get_result self <> inl models.InvalidInputs.
Proof.
  intros Hok. destruct (variants_raise self Hok) as [Ha [Hs [Hm Hd]]].
  repeat split; intros E.
  - apply Ha in E. discriminate E.
  - apply Hs in E. discriminate E.
  - apply Hm in E. discriminate E.
  - apply Hd in E. destruct E as [E | E]; discriminate E.
Qed.

(** C6: each of the four [get_result] methods, called on an instance
    whatever built it, raises the invalid-inputs [ValueError] exactly
    when [inputs] is not a list of at least two numbers; inputs that the
    boundary schema accepted are such a list, as they were sent and as
    the schema hands them over, so on them no variant takes that
    branch. *)
Theorem get_result_checks_inputs :
  (forall self : models.Calculation,
      (models.Addition_get_result self = inl models.InvalidInputs
       <-> ~ well_shaped (models.inputs self))
      /\ (models.Subtraction_get_result self = inl models.InvalidInputs
          <-> ~ well_shaped (models.inputs self))
      /\ (models.Multiplication_get_result self = inl models.InvalidInputs
          <-> ~ well_shaped (models.inputs self))
      /\ (models.Division_get_result self = inl models.InvalidInputs
          <-> ~ well_shaped (models.inputs self)))
  /\ (forall (raw_type raw_inputs : pyval) (m : schemas.CalculationBase)
             (self : models.Calculation),
         schemas.CalculationBase_validate raw_type raw_inputs = inr m ->
         models.inputs self = raw_inputs
         \/ models.inputs self = PyList (floats (schemas.inputs m)) ->
         well_shaped raw_inputs
         /\ 2 <= List.length (schemas.inputs m)
         /\ models.Addition_get_result self <> inl models.InvalidInputs
         /\ models.Subtraction_get_result self <> inl models.InvalidInputs
         /\ models.Multiplication_get_result self <> inl models.InvalidInputs
         /\ models.Division_get_result self <> inl models.InvalidInputs).
Proof.
  split.
  - intros self.
    destruct (checked_inputs_cases (models.inputs self))
      as [[_ Hbad] | [xs [Ein [Hlen _]]]].
    + destruct (guard_rejects self Hbad) as [Ha [Hs [Hm Hd]]].
      repeat split; auto.
    + assert (Hok : well_shaped (models.inputs self)) by (exists xs; auto).
      destruct (guard_passes self Hok) as [Ha [Hs [Hm Hd]]].
      repeat split; intros Hx; solve [contradiction | exfalso; auto].
  - intros raw_type raw_inputs m self Hv Hin.
    apply CalculationBase_validate_inr in Hv.
    destruct Hv as [_ [[xs [Hraw Hfl]] [Hlen _]]].
    assert (Hraw_ok : well_shaped raw_inputs).
    { exists xs. split; [exact Hraw |].
      now rewrite <- (float_list_length xs _ Hfl). }
    split; [exact Hraw_ok |]. split; [exact Hlen |].
    apply guard_passes. destruct Hin as [-> | ->]; [exact Hraw_ok |].
    exists (floats (schemas.inputs m)). split; [reflexivity |].
    unfold floats. now rewrite length_map.
Qed.

Lemma get_result_checks_inputs_witness :
  models.Division_get_result
    (models.init models.Division 7%N (PyList (ints [100; 2]%Z)))
  <> inl models.InvalidInputs.
Proof.
  apply (proj2 get_result_checks_inputs
           (PyStr "division") (PyList (ints [100; 2]%Z))
           {| schemas.type := schemas.DIVISION;
              schemas.inputs := [100; 2]%float |}
           (models.init models.Division 7%N (PyList (ints [100; 2]%Z)))
           eq_refl (or_introl eq_refl)).
Defined.

(** ** The two layers on floats *)

Lemma get_result_floats_cases (k : models.CalculationClass) (user_id : UUID)
  (fs : list float) :
  In k models.variants ->
  2 <= List.length fs ->
  (k = models.Division
   /\ Exists is_zero (tl (floats fs))
   /\ models.get_result (models.init k user_id (PyList (floats fs)))
      = inl models.DivisionByZero)
  \/ ((k = models.Division -> Forall nonzero (tl (floats fs)))
      /\ exists value,
           models.get_result (models.init k user_id (PyList (floats fs)))
           = inr (PyFloat value)).
Proof.
  intros Hk Hlen.
  assert (Hlen' : 2 <= List.length (floats fs))
    by (unfold floats; now rewrite length_map).
  destruct fs as [| f0 fs']; [simpl in Hlen; lia |].
  simpl in Hk.
  destruct Hk as [<- | [<- | [<- | [<- | []]]]]; unfold models.get_result;
    simpl models.class_.
  - right. split; [discriminate |]. eexists.
    rewrite (Addition_get_result_sum
               (models.init models.Addition user_id
                  (PyList (floats (f0 :: fs')))) _ eq_refl Hlen').
    apply sum_floats.
  - right. split; [discriminate |].
    destruct (Subtraction_get_result_loop
                (models.init models.Subtraction user_id
                   (PyList (floats (f0 :: fs')))) _ eq_refl Hlen')
      as [x0 [rest [E ->]]].
    simpl in E. injection E as <- <-.
    eexists. apply Subtraction_loop_floats.
  - right. split; [discriminate |]. eexists.
    rewrite (Multiplication_get_result_loop
               (models.init models.Multiplication user_id
                  (PyList (floats (f0 :: fs')))) _ eq_refl Hlen').
    apply Multiplication_loop_floats.
  - destruct (Division_get_result_loop
                (models.init models.Division user_id
                   (PyList (floats (f0 :: fs')))) _ eq_refl Hlen')
      as [x0 [rest [E ->]]].
    simpl in E. injection E as <- <-. simpl tl.
    destruct (Division_loop_floats_cases fs' f0) as [[Hex ->] | [Hall ->]].
    + left. auto.
    + right. split; [auto | eexists; reflexivity].
Qed.

(** The enum member that goes with a class of the factory's dict. *)
Lemma registered_member (tag : string) (k : models.CalculationClass) :
  dict_get models.calculation_classes (lower tag) = Some k ->
  exists t : schemas.CalculationType,
    lower tag = schemas.value t
    /\ (t = schemas.DIVISION <-> k = models.Division)
    /\ In k models.variants.
Proof.
  intros Hk. apply dict_get_classes_inv in Hk.
  destruct Hk as [[Et ->] | [[Et ->] | [[Et ->] | [Et ->]]]];
    [ exists schemas.ADDITION | exists schemas.SUBTRACTION
    | exists schemas.MULTIPLICATION | exists schemas.DIVISION ];
    (split; [exact Et |]); (split; [split; intros E; (discriminate E || reflexivity) |]);
    simpl; auto 10.
Qed.

Lemma lower_value (t : schemas.CalculationType) :
  lower (schemas.value t) = schemas.value t.
Proof. destruct t; reflexivity. Qed.

(** C7, as the code has it: for a tag the factory knows and a list of at
    least two floats, which is what the schema declares and hands over,
    the boundary schema accepts the request exactly when the
    [get_result] of the class registered under the tag returns a value;
    when they refuse, both do so for a zero divisor, the schema with the
    ["Cannot divide by zero"] entry of its [ValidationError] and the
    method with the ["Cannot divide by zero."] [ValueError].  On the
    validated inputs of any request the schema accepted, the method
    returns a value. *)
Theorem schema_and_engine_agree :
  (forall (tag : string) (k : models.CalculationClass) (user_id : UUID)
          (fs : list float),
      dict_get models.calculation_classes (lower tag) = Some k ->
      2 <= List.length fs ->
      let request :=
        schemas.CalculationBase_validate (PyStr tag) (PyList (floats fs)) in
      let engine :=
        models.get_result (models.init k user_id (PyList (floats fs))) in
      ((exists m, request = inr m) <-> (exists value, engine = inr value))
      /\ ((exists m value,
              request = inr m /\ schemas.inputs m = fs
              /\ schemas.value (schemas.type m) = lower tag
              /\ engine = inr value)
          \/ (request
              = inl (ValidationError [value_error "" "Cannot divide by zero"])
              /\ engine = inl (ValueError "Cannot divide by zero.")
              /\ k = models.Division
              /\ Exists is_zero (tl (floats fs)))))
  /\ (forall (raw_type raw_inputs : pyval) (m : schemas.CalculationBase)
             (k : models.CalculationClass) (user_id : UUID),
         schemas.CalculationBase_validate raw_type raw_inputs = inr m ->
         dict_get models.calculation_classes (schemas.value (schemas.type m))
         = Some k ->
         exists value,
           models.get_result
             (models.init k user_id (PyList (floats (schemas.inputs m))))
           = inr value).
Proof.
  split.
  - intros tag k user_id fs Hk Hlen request engine.
    assert (Hcases :
              (exists m value,
                  request = inr m /\ schemas.inputs m = fs
                  /\ schemas.value (schemas.type m) = lower tag
                  /\ engine = inr value)
              \/ (request
                  = inl (ValidationError
                           [value_error "" "Cannot divide by zero"])
                  /\ engine = inl (ValueError "Cannot divide by zero.")
                  /\ k = models.Division
                  /\ Exists is_zero (tl (floats fs)))).
    { subst request engine.
      destruct (registered_member tag k Hk) as [t [Et [Hdiv Hin]]].
      rewrite (CalculationBase_validate_known tag t (floats fs) fs Et
                 (float_list_floats fs) Hlen).
      destruct (validate_inputs_cases
                  {| schemas.type := t; schemas.inputs := fs |} Hlen)
        as [[Ed [Hex ->]] | [Hall ->]];
        destruct (get_result_floats_cases k user_id fs Hin Hlen)
          as [[Ek [Hex' ->]] | [Hall' [value ->]]]; simpl in *.
      - right. auto.
      - exfalso. rewrite <- tl_floats in Hex.
        apply (zero_nonzero_exclusive _ Hex). apply Hall'. now apply Hdiv.
      - exfalso. apply (zero_nonzero_exclusive _ Hex').
        rewrite tl_floats. apply Hall. now apply Hdiv.
      - left. eexists. eexists. repeat split. simpl. now rewrite Et. }
    split; [| exact Hcases].
    destruct Hcases as [[m [value [Hr [_ [_ He]]]]] | [Hr [He _]]].
    + split; intros _; eauto.
    + rewrite Hr, He. split; intros [? E]; discriminate E.
  - intros raw_type raw_inputs m k user_id Hv Hk.
    apply CalculationBase_validate_inr in Hv.
    destruct Hv as [_ [_ [Hlen Hdiv]]].
    rewrite <- lower_value in Hk.
    destruct (registered_member _ k Hk) as [t [Et [Ht Hin]]].
    rewrite lower_value in Et.
    assert (Ett : t = schemas.type m).
    { destruct t, (schemas.type m); simpl in Et;
        solve [reflexivity | discriminate Et]. }
    subst t.
    destruct (get_result_floats_cases k user_id (schemas.inputs m) Hin Hlen)
      as [[Ek [Hex _]] | [_ [value Hg]]].
    + exfalso. apply (zero_nonzero_exclusive _ Hex).
      rewrite tl_floats. apply Hdiv. now apply Ht.
    + eexists. exact Hg.
Qed.

Lemma schema_and_engine_agree_witness :
  schemas.CalculationBase_validate (PyStr "Division")
    (PyList (floats [100; 5; 0; 2]%float))
  = inl (ValidationError [value_error "" "Cannot divide by zero"])
  /\ models.get_result
       (models.init models.Division 7%N (PyList (floats [100; 5; 0; 2]%float)))
     = inl (ValueError "Cannot divide by zero.").
Proof.
  destruct (proj1 schema_and_engine_agree "Division"
              models.Division 7%N [100; 5; 0; 2]%float eq_refl
              ltac:(simpl; lia)) as [_ [Hok | Hno]].
  - destruct Hok as [m [value [Hr _]]]. discriminate Hr.
  - split; [exact (proj1 Hno) | exact (proj1 (proj2 Hno))].
Defined.

(** C7 as stated fails on ints: the schema accepts the multiplication of
    [[2**1000, 2**1000, 0.5]], three numbers each of which has a float,
    and the method called on the same list does not return, because the
    exact product of the two ints is beyond the range of float when it
    meets 0.5. *)
Lemma schema_and_engine_agree_counterexample :
  2 <= List.length [PyInt (2 ^ 1000); PyInt (2 ^ 1000); PyFloat 0.5]
  /\ dict_get models.calculation_classes (lower "multiplication")
     = Some models.Multiplication
  /\ (exists m,
         schemas.CalculationBase_validate (PyStr "multiplication")
           (PyList [PyInt (2 ^ 1000); PyInt (2 ^ 1000); PyFloat 0.5])
         = inr m)
  /\ models.get_result
       (models.init models.Multiplication 7%N
          (PyList [PyInt (2 ^ 1000); PyInt (2 ^ 1000); PyFloat 0.5]))
     = inl OverflowError.
Proof.
  split; [simpl; lia |]. split; [reflexivity |]. split.
  - eexists. vm_compute. reflexivity.
  - vm_compute. reflexivity.
Qed.

(** C8: a tag whose lower-cased form is a key of the dict of classes is
    treated by [create] and by the boundary schema as its lower-cased
    form is: same record or same error from [create], same normalized
    string from [validate_type], same enum member, same outcome of the
    whole schema; ["ADDITION"] and ["addition"] give the same record,
    with result 6 on [[1, 2, 3]]. *)
Theorem type_tag_case_insensitive :
  (forall (tag : string) (user_id : UUID) (inputs : pyval),
      In (lower tag) ["addition"; "subtraction"; "multiplication"; "division"] ->
      models.create tag user_id inputs = models.create (lower tag) user_id inputs
      /\ (exists t : schemas.CalculationType,
             schemas.value t = lower tag
             /\ schemas.validate_type (PyStr tag) = inr (lower tag)
             /\ schemas.validate_type (PyStr (lower tag)) = inr (lower tag)
             /\ schemas.type_field (PyStr tag) = inr t
             /\ schemas.type_field (PyStr (lower tag)) = inr t)
      /\ schemas.CalculationBase_validate (PyStr tag) inputs
         = schemas.CalculationBase_validate (PyStr (lower tag)) inputs)
  /\ (forall user_id : UUID,
         models.create "ADDITION" user_id (PyList (ints [1; 2; 3]%Z))
         = models.create "addition" user_id (PyList (ints [1; 2; 3]%Z))
         /\ exists c,
              models.create "ADDITION" user_id (PyList (ints [1; 2; 3]%Z))
              = inr c
              /\ models.class_ c = models.Addition
              /\ models.result c = Some (PyInt 6)).
Proof.
  split.
  - intros tag user_id inputs Hin. split; [| split].
    + destruct (dict_get_classes_Some (lower tag) Hin) as [k [Hk _]].
      rewrite (create_known tag k user_id inputs Hk).
      rewrite (create_known (lower tag) k user_id inputs); [reflexivity |].
      now rewrite lower_idem.
    + assert (Ht : exists t : schemas.CalculationType,
                 schemas.value t = lower tag).
      { simpl in Hin.
        destruct Hin as [E | [E | [E | [E | []]]]];
          [ exists schemas.ADDITION | exists schemas.SUBTRACTION
          | exists schemas.MULTIPLICATION | exists schemas.DIVISION ];
          exact E. }
      destruct Ht as [t Et]. exists t.
      assert (Hv : forall s : string, lower s = schemas.value t ->
                   schemas.validate_type (PyStr s) = inr (lower s)).
      { intros s Es. unfold schemas.validate_type. rewrite Es.
        destruct t; reflexivity. }
      split; [exact Et |].
      split; [apply Hv; now rewrite Et |].
      split; [rewrite <- (lower_idem tag) at 2; apply Hv;
              now rewrite lower_idem, Et |].
      split; apply type_field_known; [| rewrite lower_idem]; now rewrite Et.
    + unfold schemas.CalculationBase_validate.
      now rewrite (type_field_lower tag).
  - intros user_id. split; [reflexivity |].
    eexists. repeat split.
Qed.

Lemma type_tag_case_insensitive_witness :
  models.create "DiViSiOn" 7%N (PyList (ints [100; 2; 5]%Z))
  = models.create "division" 7%N (PyList (ints [100; 2; 5]%Z)).
Proof.
  apply (proj1 type_tag_case_insensitive "DiViSiOn" 7%N
           (PyList (ints [100; 2; 5]%Z))).
  simpl. auto.
Defined.

(** ** The read model *)

Lemma required_inr {A : Type} (err : ErrorDetails) (o : option A) (a : A) :
  schemas.required err o = inr a -> o = Some a.
Proof. destruct o; simpl; intros E; [now injection E as -> | discriminate E]. Qed.

Lemma float_field_inr (loc : string) (o : option pynum) (x : float) :
  schemas.float_field loc o = inr x ->
  exists v, o = Some v /\ schemas.float_item v = Some x.
Proof.
  unfold schemas.float_field.
  destruct o as [v |]; [destruct (schemas.float_item v) as [y |] eqn:Ev |];
    simpl; intros E; try discriminate E.
  injection E as <-. exists v. auto.
Qed.

(** An entry reported for a later field is still reported when the
    errors of an earlier field are put in front. *)
Lemma both_keeps_error {A B : Type} (a : Exc A) (b : Exc B) (e : ErrorDetails) :
  (exists errors, b = inl (ValidationError errors) /\ In e errors) ->
  exists errors, schemas.both a b = inl (ValidationError errors) /\ In e errors.
Proof.
  intros [errors [Hb He]].
  exists (schemas.errors_of a ++ errors). split.
  - now apply both_error_right.
  - apply in_or_app. now right.
Qed.

Lemma CalculationRead_accepts (obj : models.Calculation)
  (r : schemas.CalculationRead) :
  schemas.reads_as obj r -> schemas.CalculationRead_model_validate obj = inr r.
Proof.
  intros [Et [[xs [Ei Hfl]] [Hlen [Hdiv [Eid [Eu [Ec [Em [v [Er Hv]]]]]]]]]].
  unfold schemas.CalculationRead_model_validate.
  rewrite (type_field_known (models.type obj) (schemas.read_type r) (eq_sym Et)).
  rewrite Ei, (inputs_field_ok xs _ Hfl Hlen), Eid, Eu, Ec, Em, Er.
  unfold schemas.float_field. rewrite Hv.
  destruct r as [t ys i u c m res]. simpl in *. unfold schemas.as_base. simpl.
  destruct (validate_inputs_cases
              {| schemas.type := t; schemas.inputs := ys |} Hlen)
    as [[Ed [Hex _]] | [_ ->]]; simpl in *.
  - exfalso. exact (zero_nonzero_exclusive _ Hex (Hdiv Ed)).
  - reflexivity.
Qed.

Lemma CalculationRead_inr (obj : models.Calculation)
  (r : schemas.CalculationRead) :
  schemas.CalculationRead_model_validate obj = inr r -> schemas.reads_as obj r.
Proof.
  unfold schemas.CalculationRead_model_validate, schemas.reads_as.
  match goal with
  | |- bind ?fields _ = _ -> _ => destruct fields as [e | p] eqn:Ef
  end; simpl; [discriminate |].
  destruct p as [t [i [id [u [c [m res]]]]]].
  repeat (apply both_inr in Ef;
          let Hx := fresh "Hfield" in destruct Ef as [Hx Ef]; simpl in Hx, Ef).
  apply type_field_inr in Hfield. destruct Hfield as [s [Es Hs]].
  injection Es as <-.
  apply inputs_field_inr in Hfield0. destruct Hfield0 as [xs [Hi [Hfl Hlen]]].
  apply required_inr in Hfield1, Hfield2, Hfield3, Hfield4.
  apply float_field_inr in Ef. destruct Ef as [v [Er Hv]].
  unfold schemas.as_base. simpl.
  destruct (validate_inputs_cases
              {| schemas.type := t; schemas.inputs := i |} Hlen)
    as [[_ [_ E]] | [Hdiv E]]; rewrite E; simpl; [discriminate |].
  intros Hr. injection Hr as <-. simpl.
  split; [exact Hs |]. split; [exists xs; auto |].
  split; [exact Hlen |]. split; [exact Hdiv |].
  split; [assumption |]. split; [assumption |].
  split; [assumption |]. split; [assumption |].
  exists v. auto.
Qed.

(** C9: [CalculationRead] carries [id], [user_id], [type], [inputs],
    [result], [created_at] and [updated_at], each read from the stored
    record's attribute of the same name, the numbers as floats; a stored
    record that has them all and passes the inherited validators does
    validate, to the read model with those seven values; and validating
    a record whose [result] is absent fails with an entry for the field
    [result].  The stored record's [result] is optional, and an instance
    built by its class and not by [create] has none. *)
Theorem read_model_requires_result :
  (forall (obj : models.Calculation) (r : schemas.CalculationRead),
      schemas.CalculationRead_model_validate obj = inr r ->
      models.id obj = Some (schemas.id r)
      /\ models.user_id obj = Some (schemas.user_id r)
      /\ schemas.value (schemas.read_type r) = lower (models.type obj)
      /\ (exists xs, models.inputs obj = PyList xs
                     /\ schemas.float_list xs = Some (schemas.read_inputs r))
      /\ (exists v, models.result obj = Some v
                    /\ schemas.float_item v = Some (schemas.result r))
      /\ models.created_at obj = Some (schemas.created_at r)
      /\ models.updated_at obj = Some (schemas.updated_at r))
  /\ (forall (obj : models.Calculation) (r : schemas.CalculationRead),
         schemas.reads_as obj r ->
         schemas.CalculationRead_model_validate obj = inr r)
  /\ (forall obj : models.Calculation,
         models.result obj = None ->
         exists errors,
           schemas.CalculationRead_model_validate obj
           = inl (ValidationError errors)
           /\ In (float_type "result") errors)
  /\ (forall (k : models.CalculationClass) (user_id : UUID) (inputs : pyval),
         models.result (models.init k user_id inputs) = None).
Proof.
  split; [| split; [| split]].
  - intros obj r Hr. apply CalculationRead_inr in Hr.
    destruct Hr as [Et [Hi [_ [_ [Eid [Eu [Ec [Em Er]]]]]]]]. auto 10.
  - intros obj r. apply CalculationRead_accepts.
  - intros obj Hnone. unfold schemas.CalculationRead_model_validate.
    rewrite Hnone.
    match goal with
    | |- exists errors, bind ?fields _ = _ /\ _ =>
        assert (Hf : exists errors,
                   fields = inl (ValidationError errors)
                   /\ In (float_type "result") errors)
    end.
    { repeat apply both_keeps_error.
      exists [float_type "result"]. split; [reflexivity | now left]. }
    destruct Hf as [errors [-> Hin]]. exists errors. split; [reflexivity | exact Hin].
  - reflexivity.
Qed.

Lemma read_model_requires_result_witness :
  schemas.CalculationRead_model_validate
    {| models.class_ := models.Addition;
       models.id := Some 1%N;
       models.user_id := Some 7%N;
       models.type := "addition";
       models.inputs := PyList (ints [1; 2; 3]%Z);
       models.result := Some (PyInt 6);
       models.created_at := Some 10%N;
       models.updated_at := Some 11%N |}
  = inr {| schemas.read_type := schemas.ADDITION;
           schemas.read_inputs := [1; 2; 3]%float;
           schemas.id := 1%N;
           schemas.user_id := 7%N;
           schemas.created_at := 10%N;
           schemas.updated_at := 11%N;
           schemas.result := 6%float |}
  /\ exists errors,
       schemas.CalculationRead_model_validate
         {| models.class_ := models.Addition;
            models.id := Some 1%N;
            models.user_id := Some 7%N;
            models.type := "addition";
            models.inputs := PyList (ints [1; 2; 3]%Z);
            models.result := None;
            models.created_at := Some 10%N;
            models.updated_at := Some 11%N |}
       = inl (ValidationError errors)
       /\ In (float_type "result") errors.
Proof.
  split.
  - apply (proj1 (proj2 read_model_requires_result)).
    unfold schemas.reads_as. simpl.
    repeat split; try reflexivity; try discriminate; try lia.
    + exists (ints [1; 2; 3]%Z). split; reflexivity.
    + exists (PyInt 6). split; reflexivity.
  - apply (proj1 (proj2 (proj2 read_model_requires_result))).
    reflexivity.
Defined.

(** ** Division and its zero test *)

Lemma Division_loop_app_bind (pre values : list pynum) (result : pynum) :
  models.Division_loop result (pre ++ values)
  = (q <- models.Division_loop result pre ;; models.Division_loop q values).
Proof.
  revert result. induction pre as [| v rest IH]; intros result; simpl.
  - reflexivity.
  - destruct (eq_zero v); simpl; [reflexivity |].
    destruct (py_truediv result v); simpl; auto.
Qed.

(** C10, as the code has it: [Division.get_result] compares every
    divisor with zero before it divides by it, so the division never
    raises [ZeroDivisionError].  On a list of at least two numbers none
    of which, after the first, compares equal to zero, it is the left
    fold of [/], which returns the quotient or, on ints beyond the range
    of float, raises [OverflowError]; on floats it returns.  When some
    divisor is zero and the divisions by the divisors before the first
    such one return, the ["Cannot divide by zero."] [ValueError] is
    raised at that one, and what follows it is not looked at; on floats
    those divisions always return. *)
Theorem division_guards_every_divisor :
  (forall self : models.Calculation,
      models.Division_get_result self <> inl ZeroDivisionError)
  /\ (forall (self : models.Calculation) (x0 : pynum) (rest : list pynum),
         models.inputs self = PyList (x0 :: rest) ->
         2 <= List.length (x0 :: rest) ->
         (Forall nonzero rest ->
          models.Division_get_result self = fold_left_exc py_truediv rest x0
          /\ (forall e, models.Division_get_result self = inl e ->
                        e = OverflowError))
         /\ (forall (pre : list pynum) (z : pynum) (post : list pynum)
                    (q : pynum),
                rest = pre ++ z :: post ->
                Forall nonzero pre ->
                is_zero z ->
                models.Division_loop x0 pre = inr q ->
                models.Division_get_result self = inl models.DivisionByZero
                /\ models.Division_loop x0 rest
                   = models.Division_loop q (z :: post)
                /\ models.Division_loop q (z :: post)
                   = inl models.DivisionByZero))
  /\ (forall (self : models.Calculation) (f0 : float) (fs : list float),
         models.inputs self = PyList (floats (f0 :: fs)) ->
         2 <= List.length (f0 :: fs) ->
         (Forall nonzero (floats fs) ->
          models.Division_get_result self
          = inr (PyFloat (fold_left PrimFloat.div fs f0)))
         /\ (forall (pre : list float) (z : float) (post : list float),
                fs = pre ++ z :: post ->
                Forall nonzero (floats pre) ->
                is_zero (PyFloat z) ->
                models.Division_get_result self = inl models.DivisionByZero
                /\ models.Division_loop (PyFloat f0) (floats pre)
                   = inr (PyFloat (fold_left PrimFloat.div pre f0)))).
Proof.
  split; [| split].
  - intros self.
    destruct (checked_inputs_cases (models.inputs self))
      as [[E _] | [xs [Ein [Hlen _]]]].
    + unfold models.Division_get_result. rewrite E. discriminate.
    + destruct (Division_get_result_loop self xs Ein Hlen)
        as [x0 [rest [_ ->]]].
      intros E. apply Division_loop_raises in E.
      destruct E as [[E _] | E]; discriminate E.
  - intros self x0 rest Hin Hlen.
    destruct (Division_get_result_loop self _ Hin Hlen) as [y0 [ys [E ->]]].
    injection E as <- <-. split.
    + intros Hall. split; [now apply Division_loop_fold |].
      intros e He. apply Division_loop_raises in He.
      destruct He as [[_ Hex] | He]; [| exact He].
      exfalso. exact (zero_nonzero_exclusive rest Hex Hall).
    + intros pre z post q -> Hpre Hz Hq.
      rewrite (Division_loop_app pre (z :: post) x0 q Hpre Hq).
      assert (Hhere : models.Division_loop q (z :: post)
                      = inl models.DivisionByZero).
      { simpl. unfold is_zero in Hz. now rewrite Hz. }
      auto.
  - intros self f0 fs Hin Hlen.
    assert (Hlen' : 2 <= List.length (floats (f0 :: fs)))
      by (unfold floats; now rewrite length_map).
    destruct (Division_get_result_loop self _ Hin Hlen') as [y0 [ys [E ->]]].
    simpl in E. injection E as <- <-. split.
    + intros Hall. now apply Division_loop_floats.
    + intros pre z post -> Hpre Hz.
      pose proof (Division_loop_floats pre f0 Hpre) as Hq.
      split; [| exact Hq].
      unfold floats. rewrite map_app. simpl.
      rewrite (Division_loop_app (map PyFloat pre) _ (PyFloat f0) _ Hpre Hq).
      simpl. unfold is_zero in Hz. simpl in Hz. now rewrite Hz.
Qed.

Lemma division_guards_every_divisor_witness :
  models.Division_get_result
    (models.init models.Division 7%N
       (PyList (floats [100; 5; 0; 2; 0]%float)))
  = inl models.DivisionByZero
  /\ models.Division_loop (PyFloat 100) (floats [5]%float)
     = inr (PyFloat 20).
Proof.
  destruct (proj2 (proj2 division_guards_every_divisor)
              (models.init models.Division 7%N
                 (PyList (floats [100; 5; 0; 2; 0]%float)))
              100%float [5; 0; 2; 0]%float eq_refl ltac:(simpl; lia))
    as [_ Hzero].
  exact (Hzero [5]%float 0%float [2; 0]%float eq_refl
           ltac:(repeat constructor) ltac:(reflexivity)).
Defined.

(** C10 as stated fails on ints beyond the range of float: [[10**400, 1]]
    has two elements and no zero divisor, and [Division.get_result]
    raises on it. *)
Lemma division_guards_every_divisor_counterexample :
  2 <= List.length (ints [10 ^ 400; 1]%Z)
  /\ Forall nonzero (tl (ints [10 ^ 400; 1]%Z))
  /\ models.Division_get_result
       (models.init models.Division 7%N (PyList (ints [10 ^ 400; 1]%Z)))
     = inl OverflowError.
Proof.
  split; [simpl; lia |]. split; [repeat constructor |].
  vm_compute. reflexivity.
Qed.

(** * Further properties of the factory *)

Lemma create_not_well_shaped (calculation_type : string)
  (k : models.CalculationClass) (user_id : UUID) (inputs : pyval) :
  dict_get models.calculation_classes (lower calculation_type) = Some k ->
  ~ well_shaped inputs ->
  models.create calculation_type user_id inputs = inl models.InvalidInputs.
Proof.
  intros Hk Hbad. rewrite (create_known _ k _ _ Hk).
  destruct (guard_rejects (models.init k user_id inputs) Hbad)
    as [Ha [Hs [Hm Hd]]].
  apply dict_get_classes_inv in Hk.
  destruct Hk as [[_ ->] | [[_ ->] | [[_ ->] | [_ ->]]]];
    unfold models.get_result; simpl models.class_;
    [rewrite Ha | rewrite Hs | rewrite Hm | rewrite Hd]; reflexivity.
Qed.

Lemma get_result_raises (k : models.CalculationClass) (user_id : UUID)
  (xs : list pynum) (e : exn) :
  In k models.variants ->
  2 <= List.length xs ->
  models.get_result (models.init k user_id (PyList xs)) = inl e ->
  (e = models.DivisionByZero /\ k = models.Division
   /\ Exists is_zero (tl xs))
  \/ e = OverflowError.
Proof.
  intros Hk Hlen.
  assert (Hok : well_shaped (models.inputs (models.init k user_id (PyList xs))))
    by (exists xs; auto).
  destruct (variants_raise _ Hok) as [Ha [Hs [Hm _]]].
  simpl in Hk.
  destruct Hk as [<- | [<- | [<- | [<- | []]]]]; unfold models.get_result;
    simpl models.class_; intros He.
  - right. exact (Ha e He).
  - right. exact (Hs e He).
  - right. exact (Hm e He).
  - destruct (Division_get_result_loop
                (models.init models.Division user_id (PyList xs)) xs
                eq_refl Hlen) as [x0 [rest [-> E]]].
    rewrite E in He. apply Division_loop_raises in He.
    destruct He as [[-> Hex] | ->]; auto.
Qed.

Lemma Division_loop_inr_nonzero (values : list pynum) (result q : pynum) :
  models.Division_loop result values = inr q -> Forall nonzero values.
Proof.
  revert result. induction values as [| v rest IH]; intros result; simpl.
  - constructor.
  - destruct (eq_zero v) eqn:Ev; simpl; [discriminate |].
    destruct (py_truediv result v) as [e | r]; simpl; [discriminate |].
    intros Hq. constructor; [exact Ev | exact (IH r Hq)].
Qed.

Lemma variant_of_known (calculation_type : string)
  (k : models.CalculationClass) :
  dict_get models.calculation_classes (lower calculation_type) = Some k ->
  In k models.variants
  /\ In (lower calculation_type) models.known_tags
  /\ models.polymorphic_identity k = lower calculation_type.
Proof.
  intros Hk. apply dict_get_classes_inv in Hk.
  destruct Hk as [[-> ->] | [[-> ->] | [[-> ->] | [-> ->]]]]; simpl; auto 10.
Qed.

Lemma create_floats_cases (calculation_type : string)
  (k : models.CalculationClass) (user_id : UUID) (fs : list float) :
  dict_get models.calculation_classes (lower calculation_type) = Some k ->
  2 <= List.length fs ->
  (k = models.Division
   /\ Exists is_zero (tl (floats fs))
   /\ models.create calculation_type user_id (PyList (floats fs))
      = inl models.DivisionByZero)
  \/ ((k = models.Division -> Forall nonzero (tl (floats fs)))
      /\ exists value,
           models.create calculation_type user_id (PyList (floats fs))
           = inr (models.set_result
                    (models.init k user_id (PyList (floats fs)))
                    (PyFloat value))).
Proof.
  intros Hk Hlen. rewrite (create_known _ k _ _ Hk).
  destruct (variant_of_known _ k Hk) as [Hin _].
  destruct (get_result_floats_cases k user_id fs Hin Hlen)
    as [[Ek [Hex ->]] | [Hall [value ->]]].
  - left. auto.
  - right. split; [exact Hall |]. exists value. reflexivity.
Qed.

Lemma length_floats (fs : list float) :
  List.length (floats fs) = List.length fs.
Proof. unfold floats. apply length_map. Qed.

(** X1: [create] raises only three [ValueError]s, each for its own
    reason, and [OverflowError]: the tag is not a key of the dict once
    lower-cased; or it is, and [inputs] is not a list of at least two
    numbers; or the tag is ['division'], the list is well shaped and one
    of its divisors compares equal to zero; or the arithmetic on a
    well-shaped list met an int beyond the range of float, which does
    not happen on a list of floats.  The [IndexError] of [inputs[0]],
    the [ZeroDivisionError] of [/] and the base class's
    [NotImplementedError] never come out of it. *)
Theorem create_raises_only :
  forall (calculation_type : string) (user_id : UUID) (inputs : pyval)
         (e : exn),
    models.create calculation_type user_id inputs = inl e ->
    (e = models.UnsupportedType calculation_type
     /\ ~ In (lower calculation_type) models.known_tags)
    \/ (e = models.InvalidInputs
        /\ In (lower calculation_type) models.known_tags
        /\ ~ well_shaped inputs)
    \/ (e = models.DivisionByZero
        /\ lower calculation_type = "division"
        /\ exists xs, inputs = PyList xs /\ 2 <= List.length xs
                      /\ Exists is_zero (tl xs))
    \/ (e = OverflowError
        /\ In (lower calculation_type) models.known_tags
        /\ well_shaped inputs
        /\ forall fs, inputs <> PyList (floats fs)).
Proof.
  intros calculation_type user_id inputs e He.
  destruct (known_tags_dec (lower calculation_type)) as [Hin | Hno].
  - destruct (dict_get_classes_Some _ Hin) as [k [Hk [Hid Hv]]].
    destruct (checked_inputs_cases inputs) as [[_ Hbad] | [xs [-> [Hlen _]]]].
    + rewrite (create_not_well_shaped _ k _ _ Hk Hbad) in He.
      injection He as <-. right. left. auto.
    + assert (Hg : models.get_result (models.init k user_id (PyList xs))
                   = inl e).
      { rewrite (create_known _ k _ _ Hk) in He.
        now apply bind_ret_inl in He. }
      destruct (get_result_raises k user_id xs e Hv Hlen Hg)
        as [[-> [Ek Hex]] | ->].
      * right. right. left. split; [reflexivity |].
        split; [| exists xs; auto]. rewrite <- Hid, Ek. reflexivity.
      * right. right. right. split; [reflexivity |].
        split; [exact Hin |]. split; [exists xs; auto |].
        intros fs Efs. injection Efs as ->.
        rewrite length_floats in Hlen.
        destruct (create_floats_cases calculation_type k user_id fs Hk Hlen)
          as [[_ [_ Hc]] | [_ [value Hc]]]; rewrite Hc in He; discriminate He.
  - left. unfold models.create in He.
    rewrite (dict_get_classes_None _ Hno) in He.
    injection He as <-. auto.
Qed.

Lemma create_raises_only_witness :
  (OverflowError = models.UnsupportedType "Addition"
   /\ ~ In "addition" models.known_tags)
  \/ (OverflowError = models.InvalidInputs
      /\ In "addition" models.known_tags
      /\ ~ well_shaped (PyList [PyInt (10 ^ 400); PyFloat 1]))
  \/ (OverflowError = models.DivisionByZero
      /\ "addition" = "division"
      /\ exists xs, PyList [PyInt (10 ^ 400); PyFloat 1] = PyList xs
                    /\ 2 <= List.length xs
                    /\ Exists is_zero (tl xs))
  \/ (OverflowError = OverflowError
      /\ In "addition" models.known_tags
      /\ well_shaped (PyList [PyInt (10 ^ 400); PyFloat 1])
      /\ forall fs, PyList [PyInt (10 ^ 400); PyFloat 1] <> PyList (floats fs)).
Proof.
  apply (create_raises_only "Addition" 7%N
           (PyList [PyInt (10 ^ 400); PyFloat 1])).
  vm_compute. reflexivity.
Defined.

(** X2: when [create] returns a record, the lower-cased tag is one of
    the four dict keys, [inputs] is a list of at least two numbers and,
    for ['division'], no element after the first compares equal to zero.
    On a list of floats these conditions are also enough. *)
Theorem create_succeeds_iff :
  (forall (calculation_type : string) (user_id : UUID) (inputs : pyval),
      (exists c, models.create calculation_type user_id inputs = inr c) ->
      In (lower calculation_type) models.known_tags
      /\ exists xs, inputs = PyList xs /\ 2 <= List.length xs
                    /\ (lower calculation_type = "division" ->
                        Forall nonzero (tl xs)))
  /\ (forall (calculation_type : string) (user_id : UUID) (fs : list float),
         (exists c,
             models.create calculation_type user_id (PyList (floats fs))
             = inr c)
         <-> (In (lower calculation_type) models.known_tags
              /\ 2 <= List.length fs
              /\ (lower calculation_type = "division" ->
                  Forall nonzero (tl (floats fs))))).
Proof.
  assert (Hgen :
            forall (calculation_type : string) (user_id : UUID) (inputs : pyval),
              (exists c, models.create calculation_type user_id inputs = inr c) ->
              In (lower calculation_type) models.known_tags
              /\ exists xs, inputs = PyList xs /\ 2 <= List.length xs
                            /\ (lower calculation_type = "division" ->
                                Forall nonzero (tl xs))).
  { intros calculation_type user_id inputs [c Hc].
    destruct (create_inr _ _ _ _ Hc) as [k [value [Hk [Hg _]]]].
    destruct (variant_of_known _ k Hk) as [Hv [Hin _]].
    split; [exact Hin |].
    destruct (checked_inputs_cases inputs) as [[_ Hbad] | [xs [-> [Hlen _]]]].
    - rewrite (create_not_well_shaped _ k _ _ Hk Hbad) in Hc. discriminate Hc.
    - exists xs. split; [reflexivity |]. split; [exact Hlen |].
      intros Ediv. rewrite Ediv in Hk. simpl in Hk. injection Hk as <-.
      destruct (Division_get_result_loop
                  (models.init models.Division user_id (PyList xs)) xs
                  eq_refl Hlen) as [x0 [rest [-> E]]].
      unfold models.get_result in Hg. simpl models.class_ in Hg.
      rewrite E in Hg. simpl. exact (Division_loop_inr_nonzero rest x0 _ Hg). }
  split; [exact Hgen |].
  intros calculation_type user_id fs. split.
  - intros Hc. destruct (Hgen _ _ _ Hc) as [Hin [xs [E [Hlen Hdiv]]]].
    injection E as <-. rewrite length_floats in Hlen. auto.
  - intros [Hin [Hlen Hdiv]].
    destruct (dict_get_classes_Some _ Hin) as [k [Hk [Hid _]]].
    destruct (create_floats_cases calculation_type k user_id fs Hk Hlen)
      as [[Ek [Hex _]] | [_ [value Hc]]].
    + exfalso. apply (zero_nonzero_exclusive _ Hex).
      apply Hdiv. rewrite <- Hid, Ek. reflexivity.
    + eexists. exact Hc.
Qed.

Lemma create_succeeds_iff_witness :
  In (lower "Division") models.known_tags
  /\ exists xs, PyList (ints [100; 2; 5]%Z) = PyList xs
                /\ 2 <= List.length xs
                /\ (lower "Division" = "division" -> Forall nonzero (tl xs)).
Proof.
  apply (proj1 create_succeeds_iff "Division" 7%N (PyList (ints [100; 2; 5]%Z))).
  eexists. vm_compute. reflexivity.
Defined.

(** * Reattaching the class from the discriminator *)

Lemma get_result_depends_on (a b : models.Calculation) :
  models.class_ a = models.class_ b ->
  models.inputs a = models.inputs b ->
  models.get_result a = models.get_result b.
Proof.
  intros Hc Hi. unfold models.get_result, models.Addition_get_result,
    models.Subtraction_get_result, models.Multiplication_get_result,
    models.Division_get_result.
  now rewrite Hc, Hi.
Qed.

Lemma class_for_identity_Some (s : string) (k : models.CalculationClass) :
  models.class_for_identity s = Some k -> models.polymorphic_identity k = s.
Proof.
  unfold models.class_for_identity. intros F.
  apply find_some in F. destruct F as [_ F]. now apply String.eqb_eq in F.
Qed.

(** X3: the identities of the mapped classes are pairwise distinct, so
    the discriminator names its class: looking up a class's identity
    gives the class back.  A record that [create] returned stores the
    identity of its own class in [type], and any instance the mapper
    builds for that [type] with the same [inputs] computes, by
    [get_result], the value the record stores in [result]. *)
Theorem discriminator_reattaches_class :
  (forall k : models.CalculationClass,
      models.class_for_identity (models.polymorphic_identity k) = Some k)
  /\ (forall (calculation_type : string) (user_id : UUID) (inputs : pyval)
             (c obj : models.Calculation),
         models.create calculation_type user_id inputs = inr c ->
         models.class_for_identity (models.type c) = Some (models.class_ obj) ->
         models.inputs obj = models.inputs c ->
         models.class_ obj = models.class_ c
         /\ exists value,
              models.result c = Some value
              /\ models.get_result obj = inr value).
Proof.
  split.
  - intros k. destruct k; reflexivity.
  - intros calculation_type user_id inputs c obj Hc Hcls Hin.
    apply create_inr in Hc. destruct Hc as [k [value [Hk [Hv ->]]]].
    simpl in Hcls, Hin. simpl models.class_.
    assert (Ek : models.class_ obj = k).
    { apply class_for_identity_Some in Hcls.
      destruct (models.class_ obj), k; simpl in Hcls;
        solve [reflexivity | discriminate Hcls]. }
    split; [exact Ek |].
    exists value. split; [reflexivity |].
    rewrite <- Hv. apply get_result_depends_on; simpl; assumption.
Qed.

Lemma discriminator_reattaches_class_witness :
  exists value : pynum,
    Some (PyFloat 10) = Some value
    /\ models.get_result
         {| models.class_ := models.Division;
            models.id := Some 4%N;
            models.user_id := Some 7%N;
            models.type := "division";
            models.inputs := PyList (ints [100; 10]%Z);
            models.result := Some (PyFloat 10);
            models.created_at := Some 1%N;
            models.updated_at := Some 2%N |}
       = inr value.
Proof.
  apply (proj2 discriminator_reattaches_class
           "division" 7%N (PyList (ints [100; 10]%Z))
           (models.set_result
              (models.init models.Division 7%N (PyList (ints [100; 10]%Z)))
              (PyFloat 10))
           {| models.class_ := models.Division;
              models.id := Some 4%N;
              models.user_id := Some 7%N;
              models.type := "division";
              models.inputs := PyList (ints [100; 10]%Z);
              models.result := Some (PyFloat 10);
              models.created_at := Some 1%N;
              models.updated_at := Some 2%N |}
           eq_refl eq_refl eq_refl).
Defined.

(** * Further properties of the boundary schema *)

Lemma allowed_inv (s : string) :
  existsb (String.eqb s) schemas.allowed = true ->
  exists t : schemas.CalculationType,
    schemas.value t = s /\ schemas.CalculationType_of_value s = Some t.
Proof.
  intros E. apply existsb_exists in E. destruct E as [x [Hx E]].
  apply String.eqb_eq in E. subst x. simpl in Hx.
  destruct Hx as [<- | [<- | [<- | [<- | []]]]];
    [ exists schemas.ADDITION | exists schemas.SUBTRACTION
    | exists schemas.MULTIPLICATION | exists schemas.DIVISION ];
    split; reflexivity.
Qed.

Lemma validate_type_cases (v : pyval) :
  ((forall s, v <> PyStr s)
   /\ schemas.validate_type v = inl (ValueError "Type must be a string"))
  \/ (exists s, v = PyStr s
                /\ existsb (String.eqb (lower s)) schemas.allowed = false
                /\ schemas.validate_type v
                   = inl (ValueError schemas.type_must_be_one_of))
  \/ (exists s, v = PyStr s
                /\ existsb (String.eqb (lower s)) schemas.allowed = true
                /\ schemas.validate_type v = inr (lower s)).
Proof.
  destruct v as [| s | x | ys | ys];
    try (left; split; [intros s; discriminate | reflexivity]).
  right. unfold schemas.validate_type.
  destruct (existsb (String.eqb (lower s)) schemas.allowed) eqn:E.
  - right. exists s. auto.
  - left. exists s. auto.
Qed.


(** X4: what [validate_type] returns is a normal form: it is the
    lower-cased argument, it is the value of one of the four enum
    members, lower-casing does not change it, and validating it again
    returns it unchanged. *)
Theorem validate_type_normalizes :
  forall (v : pyval) (s : string),
    schemas.validate_type v = inr s ->
    (exists s0, v = PyStr s0 /\ s = lower s0)
    /\ (exists t : schemas.CalculationType, schemas.value t = s)
    /\ lower s = s
    /\ schemas.validate_type (PyStr s) = inr s.
Proof.
  intros v s Hv.
  destruct (validate_type_cases v)
    as [[_ E] | [[s0 [_ [_ E]]] | [s0 [-> [Ha E]]]]];
    rewrite E in Hv; try discriminate Hv.
  injection Hv as <-.
  split; [exists s0; auto |].
  destruct (allowed_inv _ Ha) as [t [Et _]].
  split; [exists t; exact Et |].
  split; [apply lower_idem |].
  unfold schemas.validate_type. rewrite lower_idem, Ha. reflexivity.
Qed.

Lemma validate_type_normalizes_witness :
  lower "division" = "division"
  /\ schemas.validate_type (PyStr "division") = inr "division".
Proof.
  destruct (validate_type_normalizes (PyStr "DIVISION") "division"
              eq_refl) as [_ [_ [Hl Hv]]].
  split; [exact Hl | exact Hv].
Defined.

(** X5: the two layers know the same tags.  The schema's [type] field
    accepts a string exactly when the factory's dict has a class under
    its lower-cased form, and then the value of the enum member the
    schema yields is the polymorphic identity of that class. *)
Theorem schema_and_factory_know_the_same_tags :
  forall tag : string,
    ((exists t, schemas.type_field (PyStr tag) = inr t)
     <-> (exists k, dict_get models.calculation_classes (lower tag) = Some k))
    /\ (forall (t : schemas.CalculationType) (k : models.CalculationClass),
           schemas.type_field (PyStr tag) = inr t ->
           dict_get models.calculation_classes (lower tag) = Some k ->
           schemas.value t = models.polymorphic_identity k
           /\ schemas.value t = lower tag).
Proof.
  intros tag. split; [split |].
  - intros [t Ht]. apply type_field_inr in Ht.
    destruct Ht as [s [Es Hv]]. injection Es as <-.
    assert (Hin : In (lower tag) models.known_tags).
    { rewrite <- Hv. destruct t; simpl; auto. }
    destruct (dict_get_classes_Some _ Hin) as [k [Hk _]]. eauto.
  - intros [k Hk]. destruct (registered_member tag k Hk) as [t [Et _]].
    exists t. now apply type_field_known.
  - intros t k Ht Hk. apply type_field_inr in Ht.
    destruct Ht as [s [Es Hv]]. injection Es as <-.
    split; [| exact Hv].
    apply dict_get_classes_inv in Hk. rewrite Hv.
    destruct Hk as [[-> ->] | [[-> ->] | [[-> ->] | [-> ->]]]]; reflexivity.
Qed.





(** X9: the validated model of a request that [CalculationBase] accepts
    is one [create] builds a record from, with the tag as it was sent or
    as the schema normalized it: the record is the same, its [type] is
    the value of the validated enum member, its [inputs] are the
    validated floats and its [result] is a float. *)
Theorem accepted_request_is_created :
  forall (raw_type raw_inputs : pyval) (m : schemas.CalculationBase)
         (user_id : UUID),
    schemas.CalculationBase_validate raw_type raw_inputs = inr m ->
    exists (c : models.Calculation) (value : float),
      models.create (schemas.value (schemas.type m)) user_id
        (PyList (floats (schemas.inputs m))) = inr c
      /\ (forall s, raw_type = PyStr s ->
                    models.create s user_id
                      (PyList (floats (schemas.inputs m))) = inr c)
      /\ models.type c = schemas.value (schemas.type m)
      /\ models.inputs c = PyList (floats (schemas.inputs m))
      /\ models.result c = Some (PyFloat value).
Proof.
  intros raw_type raw_inputs m user_id Hv.
  apply CalculationBase_validate_inr in Hv.
  destruct Hv as [Ht [_ [Hlen Hdiv]]].
  apply type_field_inr in Ht. destruct Ht as [s [-> Et]].
  assert (Hin : In (lower s) models.known_tags).
  { rewrite <- Et. destruct (schemas.type m); simpl; auto. }
  destruct (dict_get_classes_Some _ Hin) as [k [Hk [Hid _]]].
  assert (Hk' : dict_get models.calculation_classes
                  (lower (schemas.value (schemas.type m))) = Some k).
  { now rewrite Et, lower_idem. }
  destruct (create_floats_cases s k user_id (schemas.inputs m) Hk Hlen)
    as [[Ek [Hex _]] | [_ [value Hc]]].
  - exfalso. apply (zero_nonzero_exclusive _ Hex).
    rewrite tl_floats. apply Hdiv.
    rewrite Ek in Hid. simpl in Hid. rewrite <- Et in Hid.
    destruct (schemas.type m); simpl in Hid;
      solve [reflexivity | discriminate Hid].
  - exists (models.set_result
              (models.init k user_id (PyList (floats (schemas.inputs m))))
              (PyFloat value)), value.
    split; [| split; [| split; [| split]]].
    + rewrite (create_known _ k _ _ Hk').
      rewrite (create_known _ k _ _ Hk) in Hc. exact Hc.
    + intros s' Es. injection Es as <-. exact Hc.
    + simpl. now rewrite Hid, Et.
    + reflexivity.
    + reflexivity.
Qed.

Lemma accepted_request_is_created_witness :
  exists (c : models.Calculation) (value : float),
    models.create "division" 7%N (PyList (floats [0; 5; 2]%float)) = inr c
    /\ (forall s, PyStr "Division" = PyStr s ->
                  models.create s 7%N (PyList (floats [0; 5; 2]%float)) = inr c)
    /\ models.type c = "division"
    /\ models.inputs c = PyList (floats [0; 5; 2]%float)
    /\ models.result c = Some (PyFloat value).
Proof.
  apply (accepted_request_is_created (PyStr "Division")
           (PyList (ints [0; 5; 2]%Z))
           {| schemas.type := schemas.DIVISION;
              schemas.inputs := [0; 5; 2]%float |} 7%N).
  reflexivity.
Defined.

(** * Further properties of the read model *)

(** X10: [CalculationRead] validates a stored record exactly when [id],
    [user_id], [created_at], [updated_at] and [result] are all present,
    the numbers of [inputs] and [result] have floats, and the record
    passes the validators inherited from [CalculationBase]: its [type],
    lower-cased, is one of the four values, its [inputs] is a list of at
    least two numbers and, for division, none after the first compares
    equal to zero.  The read model then holds exactly those seven
    attributes, the numbers as floats. *)
Theorem CalculationRead_accepts_iff :
  forall (obj : models.Calculation) (r : schemas.CalculationRead),
    schemas.CalculationRead_model_validate obj = inr r
    <-> schemas.value (schemas.read_type r) = lower (models.type obj)
        /\ (exists xs, models.inputs obj = PyList xs
                       /\ schemas.float_list xs = Some (schemas.read_inputs r))
        /\ 2 <= List.length (schemas.read_inputs r)
        /\ (schemas.read_type r = schemas.DIVISION ->
            Forall nonzero (floats (tl (schemas.read_inputs r))))
        /\ models.id obj = Some (schemas.id r)
        /\ models.user_id obj = Some (schemas.user_id r)
        /\ models.created_at obj = Some (schemas.created_at r)
        /\ models.updated_at obj = Some (schemas.updated_at r)
        /\ (exists v, models.result obj = Some v
                      /\ schemas.float_item v = Some (schemas.result r)).
Proof.
  intros obj r. split.
  - apply CalculationRead_inr.
  - apply CalculationRead_accepts.
Qed.

Lemma created_on_floats (calculation_type : string) (user_id : UUID)
  (fs : list float) (c : models.Calculation) :
  models.create calculation_type user_id (PyList (floats fs)) = inr c ->
  exists k t value,
    dict_get models.calculation_classes (lower calculation_type) = Some k
    /\ lower calculation_type = schemas.value t
    /\ models.polymorphic_identity k = schemas.value t
    /\ 2 <= List.length fs
    /\ (t = schemas.DIVISION -> Forall nonzero (floats (tl fs)))
    /\ c = models.set_result
             (models.init k user_id (PyList (floats fs))) (PyFloat value).
Proof.
  intros Hc. pose proof Hc as Hc0.
  apply create_inr in Hc. destruct Hc as [k [v [Hk _]]].
  destruct (registered_member calculation_type k Hk) as [t [Et [Hdiv _]]].
  destruct (variant_of_known _ k Hk) as [_ [_ Hid]].
  destruct (checked_inputs_cases (PyList (floats fs)))
    as [[_ Hbad] | [xs [E [Hlen _]]]].
  - rewrite (create_not_well_shaped _ k _ _ Hk Hbad) in Hc0. discriminate Hc0.
  - injection E as <-. rewrite length_floats in Hlen.
    destruct (create_floats_cases calculation_type k user_id fs Hk Hlen)
      as [[_ [_ Hz]] | [Hall [value Hv]]]; rewrite Hc0 in *; [discriminate Hz |].
    injection Hv as ->.
    exists k, t, value. split; [exact Hk |]. split; [exact Et |].
    split; [now rewrite Hid |]. split; [exact Hlen |].
    split; [| reflexivity].
    intros Ed. rewrite <- tl_floats. apply Hall. now apply Hdiv.
Qed.

(** X11: a record that [create] returned for a list of floats, once the
    flush has given it its [id] and its timestamps, always validates as
    a [CalculationRead], and the read model shows the value [create]
    stored, the owner and the inputs that were passed, the lower-cased
    tag and the generated [id] and timestamps. *)
Theorem created_record_reads_back :
  forall (calculation_type : string) (user_id : UUID) (fs : list float)
         (c : models.Calculation)
         (new_id : UUID) (now_created now_updated : datetime),
    models.create calculation_type user_id (PyList (floats fs)) = inr c ->
    exists r : schemas.CalculationRead,
      schemas.CalculationRead_model_validate
        (models.apply_defaults new_id now_created now_updated c) = inr r
      /\ models.result c = Some (PyFloat (schemas.result r))
      /\ schemas.read_inputs r = fs
      /\ schemas.value (schemas.read_type r) = lower calculation_type
      /\ schemas.user_id r = user_id
      /\ schemas.id r = new_id
      /\ schemas.created_at r = now_created
      /\ schemas.updated_at r = now_updated.
Proof.
  intros calculation_type user_id fs c new_id now_created now_updated Hc.
  destruct (created_on_floats _ _ _ _ Hc)
    as [k [t [value [Hk [Et [Hid [Hlen [Hdiv ->]]]]]]]].
  exists {| schemas.read_type := t; schemas.read_inputs := fs;
            schemas.id := new_id; schemas.user_id := user_id;
            schemas.created_at := now_created;
            schemas.updated_at := now_updated;
            schemas.result := value |}.
  split; [| simpl; auto 10].
  apply CalculationRead_accepts. unfold schemas.reads_as. simpl.
  split; [rewrite Hid; symmetry; apply lower_value |].
  split; [exists (floats fs); split;
          [reflexivity | apply float_list_floats] |].
  split; [exact Hlen |]. split; [exact Hdiv |].
  repeat (split; [reflexivity |]).
  exists (PyFloat value). split; reflexivity.
Qed.

Lemma created_record_reads_back_witness :
  exists r : schemas.CalculationRead,
    schemas.CalculationRead_model_validate
      (models.apply_defaults 4%N 10%N 11%N
         (models.set_result
            (models.init models.Division 7%N
               (PyList (floats [100; 2; 5]%float)))
            (PyFloat 10))) = inr r
    /\ Some (PyFloat 10) = Some (PyFloat (schemas.result r)).
Proof.
  destruct (created_record_reads_back "Division" 7%N [100; 2; 5]%float
              (models.set_result
                 (models.init models.Division 7%N
                    (PyList (floats [100; 2; 5]%float)))
                 (PyFloat 10))
              4%N 10%N 11%N eq_refl) as [r [Hr [Hres _]]].
  exists r. split; [exact Hr | exact Hres].
Defined.

(** X12: the record [create] returns has not been flushed: its [id] and
    its timestamps are still absent, so validating it as a
    [CalculationRead] right away fails; for a record made from a list of
    floats, with exactly the three entries for [id], [created_at] and
    [updated_at] and none for [result]. *)
Theorem created_record_needs_flush :
  (forall (calculation_type : string) (user_id : UUID) (inputs : pyval)
          (c : models.Calculation),
      models.create calculation_type user_id inputs = inr c ->
      models.id c = None
      /\ models.created_at c = None
      /\ models.updated_at c = None
      /\ exists errors,
           schemas.CalculationRead_model_validate c
           = inl (ValidationError errors)
           /\ In (uuid_type "id") errors)
  /\ (forall (calculation_type : string) (user_id : UUID) (fs : list float)
             (c : models.Calculation),
         models.create calculation_type user_id (PyList (floats fs)) = inr c ->
         schemas.CalculationRead_model_validate c
         = inl (ValidationError
                  [uuid_type "id"; datetime_type "created_at";
                   datetime_type "updated_at"])).
Proof.
  split.
  - intros calculation_type user_id inputs c Hc.
    apply create_inr in Hc. destruct Hc as [k [value [Hk [Hg ->]]]].
    repeat (split; [reflexivity |]).
    unfold schemas.CalculationRead_model_validate. simpl.
    match goal with
    | |- exists errors, bind ?fields _ = _ /\ _ =>
        assert (Hf : exists errors,
                   fields = inl (ValidationError errors)
                   /\ In (uuid_type "id") errors)
    end.
    { repeat apply both_keeps_error.
      eexists. split; [reflexivity |]. now left. }
    destruct Hf as [errors [-> Hin]]. exists errors. auto.
  - intros calculation_type user_id fs c Hc.
    destruct (created_on_floats _ _ _ _ Hc)
      as [k [t [value [Hk [Et [Hid [Hlen [Hdiv ->]]]]]]]].
    unfold schemas.CalculationRead_model_validate. simpl.
    assert (Ht : schemas.type_field (PyStr (models.polymorphic_identity k))
                 = inr t).
    { apply type_field_known. rewrite Hid. apply lower_value. }
    rewrite Ht, (inputs_field_ok _ _ (float_list_floats fs) Hlen).
    reflexivity.
Qed.

Lemma created_record_needs_flush_witness :
  schemas.CalculationRead_model_validate
    (models.set_result
       (models.init models.Addition 7%N (PyList (floats [1; 2; 3]%float)))
       (PyFloat 6))
  = inl (ValidationError
           [uuid_type "id"; datetime_type "created_at";
            datetime_type "updated_at"]).
Proof.
  apply (proj2 created_record_needs_flush "addition" 7%N [1; 2; 3]%float
           (models.set_result
              (models.init models.Addition 7%N (PyList (floats [1; 2; 3]%float)))
              (PyFloat 6))
           eq_refl).
Defined.

(** * One more input *)

(** X13: the difference, the product and the quotient are built up from
    the left by the loops of the code, so an input put at the end of a
    list of at least two numbers only adds one step: when the shorter
    list gave a result, the longer one gives that result combined with
    the new input by one [-], [*] or [/], which can raise
    [OverflowError]; for the quotient a new input that compares equal to
    zero gives the division-by-zero error instead; and a list that a
    variant already refused stays refused with the same error. *)
Theorem appending_an_input :
  forall (self self' : models.Calculation) (xs : list pynum) (y : pynum),
    models.inputs self = PyList xs ->
    models.inputs self' = PyList (xs ++ [y]) ->
    2 <= List.length xs ->
    (forall r, models.Subtraction_get_result self = inr r ->
               models.Subtraction_get_result self' = py_sub r y)
    /\ (forall r, models.Multiplication_get_result self = inr r ->
                  models.Multiplication_get_result self' = py_mul r y)
    /\ (forall r, models.Division_get_result self = inr r ->
                  (nonzero y ->
                   models.Division_get_result self' = py_truediv r y)
                  /\ (is_zero y ->
                      models.Division_get_result self'
                      = inl models.DivisionByZero))
    /\ (forall e,
           (models.Subtraction_get_result self = inl e ->
            models.Subtraction_get_result self' = inl e)
           /\ (models.Multiplication_get_result self = inl e ->
               models.Multiplication_get_result self' = inl e)
           /\ (models.Division_get_result self = inl e ->
               models.Division_get_result self' = inl e)).
Proof.
  intros self self' xs y Hin Hin' Hlen.
  assert (Hlen' : 2 <= List.length (xs ++ [y])).
  { rewrite length_app. simpl. lia. }
  rewrite (Multiplication_get_result_loop self xs Hin Hlen).
  rewrite (Multiplication_get_result_loop self' _ Hin' Hlen').
  destruct (Subtraction_get_result_loop self xs Hin Hlen)
    as [x0 [rest [Exs ->]]].
  destruct (Subtraction_get_result_loop self' _ Hin' Hlen')
    as [y0 [ys [Eys ->]]].
  destruct (Division_get_result_loop self xs Hin Hlen)
    as [x1 [rest1 [Exs1 ->]]].
  destruct (Division_get_result_loop self' _ Hin' Hlen')
    as [y1 [ys1 [Eys1 ->]]].
  subst xs. injection Exs1 as <- <-.
  simpl in Eys, Eys1. injection Eys as <- <-. injection Eys1 as <- <-.
  rewrite !Subtraction_loop_fold, !Multiplication_loop_fold.
  rewrite !fold_left_exc_app, Division_loop_app_bind.
  split; [| split; [| split]].
  - intros r ->. simpl. now destruct (py_sub r y).
  - intros r ->. simpl. now destruct (py_mul r y).
  - intros r ->. simpl. split; intros Hy; unfold nonzero, is_zero in Hy;
      rewrite Hy; [now destruct (py_truediv r y) | reflexivity].
  - intros e. repeat split; intros ->; reflexivity.
Qed.

Lemma appending_an_input_witness :
  models.Division_get_result
    (models.init models.Division 7%N (PyList (ints [100; 2; 5]%Z)))
  = inr (PyFloat 10).
Proof.
  destruct (appending_an_input
              (models.init models.Division 7%N (PyList (ints [100; 2]%Z)))
              (models.init models.Division 7%N (PyList (ints [100; 2; 5]%Z)))
              (ints [100; 2]%Z) (PyInt 5) eq_refl eq_refl ltac:(simpl; lia))
    as [_ [_ [Hd _]]].
  apply (Hd (PyFloat 50) eq_refl). reflexivity.
Defined.
